(** * Scene module manager: lifecycle, observer tracking and status aggregation

    A shallow embedding of [SceneModuleManagerInterface]
    (scene_module_manager_interface.hpp) of the behavior path planner.

    The manager tracks the active scene modules through weak references
    ([std::weak_ptr]); the instances themselves are owned elsewhere.  The
    embedding therefore carries an explicit store of the instances that are
    still alive: a weak reference is a key of that store, it is expired when
    the key is absent, and [lock()] is the lookup.  The idle module is held
    through a [std::unique_ptr], modelled as an optional slot owned by the
    manager.  Publishers are modelled by the list of the messages sent so
    far, newest first.  The clock read by the publishing functions is an
    argument.

    [init], [initInterface], [updateModuleParams], [publishRTCStatus] and the
    two configuration getters touch none of the members modelled here and are
    left out; [updateIdleModuleInstance] is only declared in the header. *)

From Stdlib Require Import ZArith Lia.
From stdpp Require Import base option list gmap strings.

(** ** Messages *)

(** [rclcpp::Time], [geometry_msgs::Pose], [PlannerData] and
    [BehaviorModuleOutput] are opaque for the manager: it only moves them
    around. *)
Abbreviation Time := nat (only parsing).
Abbreviation Pose := nat (only parsing).
Abbreviation PlannerData := nat (only parsing).
Abbreviation BehaviorModuleOutput := nat (only parsing).

(** [visualization_msgs::msg::Marker]: the fields the manager reads or
    writes.  [id] is an [int32]. *)
Record Marker := mkMarker {
  ns : string;
  id : Z;
  text : string;
  pose : Pose;
  stamp : Time
}.

Abbreviation MarkerArray := (list Marker) (only parsing).

(** Modelled from the spec: [PlanningBehavior] (declared in
    autoware_adapi_v1_msgs, which is not part of the sources at hand): the
    classification of a factor is either the unknown/unset sentinel or a
    concrete behaviour. *)
Inductive PlanningBehavior :=
  | UNKNOWN
  | CONCRETE (code : N).

Definition behavior_neq (a b : PlanningBehavior) : bool :=
  match a, b with
  | UNKNOWN, UNKNOWN => false
  | CONCRETE x, CONCRETE y => negb (N.eqb x y)
  | _, _ => true
  end.

(** [SteeringFactor] and [VelocityFactor]: the classification and the rest of
    the record. *)
Record Factor := mkFactor {
  behavior : PlanningBehavior;
  detail : nat
}.

(** [SteeringFactorArray] and [VelocityFactorArray]. *)
Record FactorArray := mkFactorArray {
  frame_id : string;
  header_stamp : Time;
  factors : list Factor
}.

(** ** Fixed-width arithmetic on marker identifiers *)

Definition uint8_max : Z := 255.

(** [uint32_t] addition. *)
Definition uint32_add (a b : Z) : Z := ((a + b) mod 2 ^ 32)%Z.

(** Conversion of a value to [int32_t] (two's complement). *)
Definition to_int32 (z : Z) : Z :=
  let u := (z mod 2 ^ 32)%Z in
  if (u <? 2 ^ 31)%Z then u else (u - 2 ^ 32)%Z.

(** [marker.id += marker_id] with [marker.id : int32_t] and
    [marker_id : uint32_t]: the sum is computed on 32 unsigned bits and
    stored back in the signed field. *)
Definition id_add (i marker_id : Z) : Z := to_int32 (i + marker_id).

Definition offset_marker (marker_id : Z) (m : Marker) : Marker :=
  mkMarker (ns m) (id_add (id m) marker_id) (text m) (pose m) (stamp m).

(** Modelled from the spec: [createStopVirtualWallMarker],
    [createSlowDownVirtualWallMarker] and [createDeadLineVirtualWallMarker]
    (autoware_motion_utils, not part of the sources at hand) synthesize the
    wall marker at the pose, labeled with the behavior name and the
    identifier they are given. *)
Definition createVirtualWallMarker (kind : string)
    (p : Pose) (module_name : string) (now : Time) (marker_id : Z) : MarkerArray :=
  [mkMarker kind (to_int32 marker_id) module_name p now].

Definition createStopVirtualWallMarker := createVirtualWallMarker "stop_virtual_wall".
Definition createSlowDownVirtualWallMarker := createVirtualWallMarker "slow_down_virtual_wall".
Definition createDeadLineVirtualWallMarker := createVirtualWallMarker "dead_line_virtual_wall".

(** [autoware::universe_utils::appendMarkerArray]. *)
Definition appendMarkerArray (additional : MarkerArray) (markers : MarkerArray) : MarkerArray :=
  markers ++ additional.

(** ** The scene module, as the manager sees it *)

Module Scene.

(** Modelled from the spec: [SceneModuleInterface] (its header is not part of
    the sources at hand).  The fields set by the manager, the lifecycle hooks
    (counted, so that an invocation is observable) and the query surface. *)
Record t := mk {
  name : string;
  planner_data : option PlannerData;
  previous_module_output : option BehaviorModuleOutput;
  reporters : list nat;
  updated : nat;
  entered : nat;
  exited : nat;
  execution_requested : bool;
  stop_pose : option Pose;
  slow_pose : option Pose;
  dead_pose : option Pose;
  module_virtual_wall : MarkerArray;
  info_markers : MarkerArray;
  debug_markers : MarkerArray;
  drivable_lanes_markers : MarkerArray;
  steering_factor : Factor;
  velocity_factor : Factor
}.

Definition setData (d : option PlannerData) (m : t) : t :=
  mk (name m) d (previous_module_output m) (reporters m) (updated m)
     (entered m) (exited m) (execution_requested m)
     (stop_pose m) (slow_pose m) (dead_pose m) (module_virtual_wall m)
     (info_markers m) (debug_markers m) (drivable_lanes_markers m)
     (steering_factor m) (velocity_factor m).

Definition setPreviousModuleOutput (o : BehaviorModuleOutput) (m : t) : t :=
  mk (name m) (planner_data m) (Some o) (reporters m) (updated m)
     (entered m) (exited m) (execution_requested m)
     (stop_pose m) (slow_pose m) (dead_pose m) (module_virtual_wall m)
     (info_markers m) (debug_markers m) (drivable_lanes_markers m)
     (steering_factor m) (velocity_factor m).

Definition add_reporter (p : nat) (m : t) : t :=
  mk (name m) (planner_data m) (previous_module_output m) (reporters m ++ [p])
     (updated m) (entered m) (exited m) (execution_requested m)
     (stop_pose m) (slow_pose m) (dead_pose m) (module_virtual_wall m)
     (info_markers m) (debug_markers m) (drivable_lanes_markers m)
     (steering_factor m) (velocity_factor m).

Definition updateData (m : t) : t :=
  mk (name m) (planner_data m) (previous_module_output m) (reporters m)
     (S (updated m)) (entered m) (exited m) (execution_requested m)
     (stop_pose m) (slow_pose m) (dead_pose m) (module_virtual_wall m)
     (info_markers m) (debug_markers m) (drivable_lanes_markers m)
     (steering_factor m) (velocity_factor m).

Definition onEntry (m : t) : t :=
  mk (name m) (planner_data m) (previous_module_output m) (reporters m)
     (updated m) (S (entered m)) (exited m) (execution_requested m)
     (stop_pose m) (slow_pose m) (dead_pose m) (module_virtual_wall m)
     (info_markers m) (debug_markers m) (drivable_lanes_markers m)
     (steering_factor m) (velocity_factor m).

Definition onExit (m : t) : t :=
  mk (name m) (planner_data m) (previous_module_output m) (reporters m)
     (updated m) (entered m) (S (exited m)) (execution_requested m)
     (stop_pose m) (slow_pose m) (dead_pose m) (module_virtual_wall m)
     (info_markers m) (debug_markers m) (drivable_lanes_markers m)
     (steering_factor m) (velocity_factor m).

Definition resetWallPoses (m : t) : t :=
  mk (name m) (planner_data m) (previous_module_output m) (reporters m)
     (updated m) (entered m) (exited m) (execution_requested m)
     None None None (module_virtual_wall m)
     (info_markers m) (debug_markers m) (drivable_lanes_markers m)
     (steering_factor m) (velocity_factor m).

Definition isExecutionRequested (m : t) : bool := execution_requested m.
Definition getStopPose (m : t) : option Pose := stop_pose m.
Definition getSlowPose (m : t) : option Pose := slow_pose m.
Definition getDeadPose (m : t) : option Pose := dead_pose m.
Definition getModuleVirtualWall (m : t) : MarkerArray := module_virtual_wall m.
Definition getInfoMarkers (m : t) : MarkerArray := info_markers m.
Definition getDebugMarkers (m : t) : MarkerArray := debug_markers m.
Definition getDrivableLanesMarkers (m : t) : MarkerArray := drivable_lanes_markers m.
Definition get_steering_factor (m : t) : Factor := steering_factor m.
Definition get_velocity_factor (m : t) : Factor := velocity_factor m.

End Scene.

(** ** The manager *)

(** A [SceneModuleObserver] ([std::weak_ptr<SceneModuleInterface>]) is the key
    of the instance in the store of live instances. *)
Abbreviation SceneModuleObserver := nat (only parsing).

(** The manager's members, together with the store of the instances that are
    alive ([instances]), which the manager does not own. *)
Record World := mkWorld {
  instances : gmap nat Scene.t;
  name_ : string;
  planner_data_ : option PlannerData;
  observers_ : list SceneModuleObserver;
  idle_module_ptr_ : option Scene.t;
  pub_processing_time_ : nat;
  pub_info_marker_ : list MarkerArray;
  pub_debug_marker_ : list MarkerArray;
  pub_virtual_wall_ : list MarkerArray;
  pub_drivable_lanes_ : list MarkerArray;
  pub_steering_factors_ : list FactorArray;
  pub_velocity_factors_ : list FactorArray
}.

(** [observer.expired()] and [observer.lock()]. *)
Definition lock (h : gmap nat Scene.t) (observer : SceneModuleObserver) : option Scene.t :=
  h !! observer.

Definition expired (h : gmap nat Scene.t) (observer : SceneModuleObserver) : bool :=
  match lock h observer with
  | Some _ => false
  | None => true
  end.

Definition with_instances (h : gmap nat Scene.t) (w : World) : World :=
  mkWorld h (name_ w) (planner_data_ w) (observers_ w) (idle_module_ptr_ w)
    (pub_processing_time_ w) (pub_info_marker_ w) (pub_debug_marker_ w)
    (pub_virtual_wall_ w) (pub_drivable_lanes_ w) (pub_steering_factors_ w)
    (pub_velocity_factors_ w).

Definition with_observers (o : list SceneModuleObserver) (w : World) : World :=
  mkWorld (instances w) (name_ w) (planner_data_ w) o (idle_module_ptr_ w)
    (pub_processing_time_ w) (pub_info_marker_ w) (pub_debug_marker_ w)
    (pub_virtual_wall_ w) (pub_drivable_lanes_ w) (pub_steering_factors_ w)
    (pub_velocity_factors_ w).

Definition with_idle (i : option Scene.t) (w : World) : World :=
  mkWorld (instances w) (name_ w) (planner_data_ w) (observers_ w) i
    (pub_processing_time_ w) (pub_info_marker_ w) (pub_debug_marker_ w)
    (pub_virtual_wall_ w) (pub_drivable_lanes_ w) (pub_steering_factors_ w)
    (pub_velocity_factors_ w).

Definition with_planner_data (d : option PlannerData) (w : World) : World :=
  mkWorld (instances w) (name_ w) d (observers_ w) (idle_module_ptr_ w)
    (pub_processing_time_ w) (pub_info_marker_ w) (pub_debug_marker_ w)
    (pub_virtual_wall_ w) (pub_drivable_lanes_ w) (pub_steering_factors_ w)
    (pub_velocity_factors_ w).

Definition publish_info (b : MarkerArray) (w : World) : World :=
  mkWorld (instances w) (name_ w) (planner_data_ w) (observers_ w) (idle_module_ptr_ w)
    (pub_processing_time_ w) (b :: pub_info_marker_ w) (pub_debug_marker_ w)
    (pub_virtual_wall_ w) (pub_drivable_lanes_ w) (pub_steering_factors_ w)
    (pub_velocity_factors_ w).

Definition publish_debug (b : MarkerArray) (w : World) : World :=
  mkWorld (instances w) (name_ w) (planner_data_ w) (observers_ w) (idle_module_ptr_ w)
    (pub_processing_time_ w) (pub_info_marker_ w) (b :: pub_debug_marker_ w)
    (pub_virtual_wall_ w) (pub_drivable_lanes_ w) (pub_steering_factors_ w)
    (pub_velocity_factors_ w).

Definition publish_virtual_wall (b : MarkerArray) (w : World) : World :=
  mkWorld (instances w) (name_ w) (planner_data_ w) (observers_ w) (idle_module_ptr_ w)
    (pub_processing_time_ w) (pub_info_marker_ w) (pub_debug_marker_ w)
    (b :: pub_virtual_wall_ w) (pub_drivable_lanes_ w) (pub_steering_factors_ w)
    (pub_velocity_factors_ w).

Definition publish_drivable_lanes (b : MarkerArray) (w : World) : World :=
  mkWorld (instances w) (name_ w) (planner_data_ w) (observers_ w) (idle_module_ptr_ w)
    (pub_processing_time_ w) (pub_info_marker_ w) (pub_debug_marker_ w)
    (pub_virtual_wall_ w) (b :: pub_drivable_lanes_ w) (pub_steering_factors_ w)
    (pub_velocity_factors_ w).

Definition publish_steering_factors (b : FactorArray) (w : World) : World :=
  mkWorld (instances w) (name_ w) (planner_data_ w) (observers_ w) (idle_module_ptr_ w)
    (pub_processing_time_ w) (pub_info_marker_ w) (pub_debug_marker_ w)
    (pub_virtual_wall_ w) (pub_drivable_lanes_ w) (b :: pub_steering_factors_ w)
    (pub_velocity_factors_ w).

Definition publish_velocity_factors (b : FactorArray) (w : World) : World :=
  mkWorld (instances w) (name_ w) (planner_data_ w) (observers_ w) (idle_module_ptr_ w)
    (pub_processing_time_ w) (pub_info_marker_ w) (pub_debug_marker_ w)
    (pub_virtual_wall_ w) (pub_drivable_lanes_ w) (pub_steering_factors_ w)
    (b :: pub_velocity_factors_ w).

(** The constructor: only the name is set; no observer, no idle module. *)
Definition SceneModuleManagerInterface (h : gmap nat Scene.t) (name : string) : World :=
  mkWorld h name None [] None 0 [] [] [] [] [] [].

(** [isExecutionRequested]: every statement dereferences
    [idle_module_ptr_]; with a null pointer there is no defined result
    ([None]). *)
Definition isExecutionRequested (w : World) (previous_module_output : BehaviorModuleOutput)
    : option (bool * World) :=
  match idle_module_ptr_ w with
  | None => None
  | Some m =>
      let m1 := Scene.setData (planner_data_ w) m in
      let m2 := Scene.setPreviousModuleOutput previous_module_output m1 in
      let m3 := Scene.updateData m2 in
      Some (Scene.isExecutionRequested m3, with_idle (Some m3) w)
  end.

(** [registerNewModule]. *)
Definition registerNewModule (w : World) (observer : SceneModuleObserver)
    (previous_module_output : BehaviorModuleOutput) : World :=
  match lock (instances w) observer with
  | None => w
  | Some m =>
      let m1 := Scene.setData (planner_data_ w) m in
      let m2 := Scene.setPreviousModuleOutput previous_module_output m1 in
      let m3 := Scene.add_reporter (pub_processing_time_ w) m2 in
      let m4 := Scene.onEntry m3 in
      with_observers (observers_ w ++ [observer])
        (with_instances (<[observer := m4]> (instances w)) w)
  end.

(** [std::remove_if]: the elements for which the predicate is false, moved to
    the front in their order; [erase] then cuts the rest off. *)
Fixpoint remove_if {A : Type} (p : A -> bool) (l : list A) : list A :=
  match l with
  | [] => []
  | x :: l' => if p x then remove_if p l' else x :: remove_if p l'
  end.

(** [updateObserver]. *)
Definition updateObserver (w : World) : World :=
  with_observers (remove_if (expired (instances w)) (observers_ w)) w.

(** [exist]. *)
Definition exist (w : World) (module_ptr : SceneModuleObserver) : bool :=
  existsb (fun observer =>
             negb (expired (instances w) observer) && Nat.eqb observer module_ptr)
          (observers_ w).

(** [canLaunchNewModule]. *)
Definition canLaunchNewModule (w : World) : bool :=
  match observers_ w with
  | [] => true
  | _ :: _ => false
  end.

(** [setData]. *)
Definition setData (w : World) (planner_data : option PlannerData) : World :=
  with_planner_data planner_data w.

(** [getIdleModule]: the pointer is moved out; the member is left null. *)
Definition getIdleModule (w : World) : option Scene.t * World :=
  (idle_module_ptr_ w, with_idle None w).

(** [getSceneModuleObservers]. *)
Definition getSceneModuleObservers (w : World) : list SceneModuleObserver := observers_ w.

(** [reset]: the [for_each] over the observers, then the rest. *)
Fixpoint exit_observers (h : gmap nat Scene.t) (obs : list SceneModuleObserver)
    : gmap nat Scene.t :=
  match obs with
  | [] => h
  | observer :: rest =>
      match lock h observer with
      | Some m => exit_observers (<[observer := Scene.onExit m]> h) rest
      | None => exit_observers h rest
      end
  end.

Definition reset (w : World) : option Scene.t * World :=
  let h := exit_observers (instances w) (observers_ w) in
  let w1 := with_observers [] (with_instances h w) in
  let released := Scene.onExit <$> idle_module_ptr_ w1 in
  (released, publish_debug [] (with_idle None w1)).

(** [publishSteeringFactor] and [publishVelocityFactor]: the loop over the
    observers, parameterised by the getter, which is all they differ in. *)
Fixpoint factor_loop (get : Scene.t -> Factor) (h : gmap nat Scene.t)
    (obs : list SceneModuleObserver) (acc : list Factor) : list Factor :=
  match obs with
  | [] => acc
  | m :: rest =>
      match lock h m with
      | None => factor_loop get h rest acc
      | Some inst =>
          let f := get inst in
          if behavior_neq (behavior f) UNKNOWN
          then factor_loop get h rest (acc ++ [f])
          else factor_loop get h rest acc
      end
  end.

Definition publishSteeringFactor (now : Time) (w : World) : World :=
  let fs := factor_loop Scene.get_steering_factor (instances w) (observers_ w) [] in
  publish_steering_factors (mkFactorArray "map" now fs) w.

Definition publishVelocityFactor (now : Time) (w : World) : World :=
  let fs := factor_loop Scene.get_velocity_factor (instances w) (observers_ w) [] in
  publish_velocity_factors (mkFactorArray "map" now fs) w.

(** [publishVirtualWall]: the body of the loop for one live instance, and the
    loop.  [marker_id] is initialised to [marker_offset] and the loop never
    changes it. *)
Definition wall_body (now : Time) (marker_id : Z) (inst : Scene.t)
    (markers : MarkerArray) : MarkerArray :=
  let markers1 :=
    match Scene.getStopPose inst with
    | Some p => appendMarkerArray
                  (createStopVirtualWallMarker p (Scene.name inst) now marker_id) markers
    | None => markers
    end in
  let markers2 :=
    match Scene.getSlowPose inst with
    | Some p => appendMarkerArray
                  (createSlowDownVirtualWallMarker p (Scene.name inst) now marker_id) markers1
    | None => markers1
    end in
  let markers3 :=
    match Scene.getDeadPose inst with
    | Some p => appendMarkerArray
                  (createDeadLineVirtualWallMarker p (Scene.name inst) now marker_id) markers2
    | None => markers2
    end in
  appendMarkerArray (Scene.getModuleVirtualWall inst) markers3.

Fixpoint wall_loop (now : Time) (marker_id : Z) (h : gmap nat Scene.t)
    (obs : list SceneModuleObserver) (markers : MarkerArray)
    : gmap nat Scene.t * MarkerArray :=
  match obs with
  | [] => (h, markers)
  | m :: rest =>
      match lock h m with
      | None => wall_loop now marker_id h rest markers
      | Some inst =>
          wall_loop now marker_id (<[m := Scene.resetWallPoses inst]> h) rest
            (wall_body now marker_id inst markers)
      end
  end.

Definition publishVirtualWall (now : Time) (w : World) : World :=
  let marker_offset := uint8_max in
  let marker_id := marker_offset in
  let '(h, markers) := wall_loop now marker_id (instances w) (observers_ w) [] in
  publish_virtual_wall markers (with_instances h w).

(** [publishMarker]: the three inner loops for one live instance, and the
    loop over the observers, which carries [marker_id] and the three
    batches. *)
Definition push_offset (marker_id : Z) (src : MarkerArray) (dst : MarkerArray) : MarkerArray :=
  dst ++ (offset_marker marker_id <$> src).

Fixpoint marker_loop (h : gmap nat Scene.t) (obs : list SceneModuleObserver)
    (marker_id : Z) (info debug drivable : MarkerArray)
    : Z * MarkerArray * MarkerArray * MarkerArray :=
  match obs with
  | [] => (marker_id, info, debug, drivable)
  | m :: rest =>
      match lock h m with
      | None => marker_loop h rest marker_id info debug drivable
      | Some inst =>
          marker_loop h rest (uint32_add marker_id uint8_max)
            (push_offset marker_id (Scene.getInfoMarkers inst) info)
            (push_offset marker_id (Scene.getDebugMarkers inst) debug)
            (push_offset marker_id (Scene.getDrivableLanesMarkers inst) drivable)
      end
  end.

(** The three batches [publishMarker] sends, in the order info, debug,
    drivable lanes. *)
Definition marker_batches (w : World) : MarkerArray * MarkerArray * MarkerArray :=
  let marker_offset := uint8_max in
  let '(_, info, debug, drivable) :=
    marker_loop (instances w) (observers_ w) marker_offset [] [] [] in
  match observers_ w, idle_module_ptr_ w with
  | [], Some idle =>
      (appendMarkerArray (Scene.getInfoMarkers idle) info,
       appendMarkerArray (Scene.getDebugMarkers idle) debug,
       appendMarkerArray (Scene.getDrivableLanesMarkers idle) drivable)
  | _, _ => (info, debug, drivable)
  end.

Definition publishMarker (w : World) : World :=
  let '(info, debug, drivable) := marker_batches w in
  publish_drivable_lanes drivable (publish_debug debug (publish_info info w)).

(** ** Sequences of operations

    What can happen to a manager between two observations: a call of one of
    its operations, or the owner of the instances destroying or changing
    one. *)
Inductive event :=
  | EvRegister (observer : SceneModuleObserver) (prev : BehaviorModuleOutput)
  | EvUpdateObserver
  | EvReset
  | EvSetData (d : option PlannerData)
  | EvGetIdleModule
  | EvIsExecutionRequested (prev : BehaviorModuleOutput)
  | EvPublishSteeringFactor (now : Time)
  | EvPublishVelocityFactor (now : Time)
  | EvPublishVirtualWall (now : Time)
  | EvPublishMarker
  | EvDestroy (r : nat)
  | EvMutate (r : nat) (m : Scene.t).

Definition step (e : event) (w : World) : option World :=
  match e with
  | EvRegister observer prev => Some (registerNewModule w observer prev)
  | EvUpdateObserver => Some (updateObserver w)
  | EvReset => Some (snd (reset w))
  | EvSetData d => Some (setData w d)
  | EvGetIdleModule => Some (snd (getIdleModule w))
  | EvIsExecutionRequested prev => snd <$> isExecutionRequested w prev
  | EvPublishSteeringFactor now => Some (publishSteeringFactor now w)
  | EvPublishVelocityFactor now => Some (publishVelocityFactor now w)
  | EvPublishVirtualWall now => Some (publishVirtualWall now w)
  | EvPublishMarker => Some (publishMarker w)
  | EvDestroy r => Some (with_instances (delete r (instances w)) w)
  | EvMutate r m =>
      match instances w !! r with
      | Some _ => Some (with_instances (<[r := m]> (instances w)) w)
      | None => Some w
      end
  end.

Fixpoint run (evs : list event) (w : World) : option World :=
  match evs with
  | [] => Some w
  | e :: rest =>
      match step e w with
      | Some w' => run rest w'
      | None => None
      end
  end.

(** The entries of the observer set whose instance is alive, and their
    number. *)
Definition live_observers (w : World) : list SceneModuleObserver :=
  filter (fun r => is_Some (instances w !! r)) (observers_ w).

Definition live_count (w : World) : nat := length (live_observers w).

Definition all_live (w : World) : Prop :=
  Forall (fun r => is_Some (instances w !! r)) (observers_ w).

(** How often a reference occurs in a list of observers. *)
Definition occurrences (r : nat) (obs : list SceneModuleObserver) : nat :=
  length (filter (fun x => x = r) obs).

(** The instances an aggregation loop works on: those of the entries that
    are not skipped, in the order of the entries. *)
Definition live_instances (h : gmap nat Scene.t) (obs : list SceneModuleObserver)
    : list Scene.t :=
  omap (fun r => h !! r) obs.

#[global] Instance PlanningBehavior_eq_dec : EqDecision PlanningBehavior.
Proof. solve_decision. Defined.

(** The batch a publisher sent last. *)
Definition last_factors (sent : list FactorArray) : list Factor :=
  match sent with
  | b :: _ => factors b
  | [] => []
  end.

Definition last_markers (sent : list (list Marker)) : list Marker :=
  match sent with
  | b :: _ => b
  | [] => []
  end.

(** The markers one of the three batches of [publishMarker] receives from the
    live entries [obs], block after block, when the first block starts at
    [marker_id]. *)
Fixpoint collect (get : Scene.t -> list Marker) (h : gmap nat Scene.t)
    (obs : list SceneModuleObserver) (marker_id : Z) : list Marker :=
  match obs with
  | [] => []
  | m :: rest =>
      match h !! m with
      | None => collect get h rest marker_id
      | Some inst =>
          (offset_marker marker_id <$> get inst)
            ++ collect get h rest (uint32_add marker_id uint8_max)
      end
  end.

(** The identifiers a module gives its markers are local: they start at 0,
    stay below the size of a block, and no two markers of a set share one. *)
Definition local_ids_ok (l : list Marker) : Prop :=
  NoDup (id <$> l) /\ Forall (fun mk => (0 <= id mk < uint8_max)%Z) l.

#[global] Instance local_ids_ok_dec l : Decision (local_ids_ok l).
Proof. unfold local_ids_ok. apply _. Defined.

Definition module_ids_ok (inst : Scene.t) : Prop :=
  local_ids_ok (Scene.getInfoMarkers inst)
  /\ local_ids_ok (Scene.getDebugMarkers inst)
  /\ local_ids_ok (Scene.getDrivableLanesMarkers inst).

#[global] Instance module_ids_ok_dec inst : Decision (module_ids_ok inst).
Proof. unfold module_ids_ok. apply _. Defined.

(** A marker with [base] added to its identifier and nothing else changed. *)
Definition shifted (base : Z) (m : Marker) : Marker :=
  mkMarker (ns m) (id m + base) (text m) (pose m) (stamp m).

(** What a batch of the marker pass has to hold for the live instances
    [insts]: the markers of the k-th of them (k from 0), in their order,
    moved into the block that starts at 255 * (k + 1). *)
Definition expected_blocks (get : Scene.t -> list Marker) (insts : list Scene.t)
    : list Marker :=
  concat (imap (fun k inst => shifted (255 * (Z.of_nat k + 1)) <$> get inst) insts).

(** A marker of a live instance is in a batch of the marker pass when the
    batch holds it with the base of the block of one of the live entries
    added, on 32 bits, to its identifier. *)
Definition in_some_block (w : World) (batch : list Marker) (mk : Marker) : Prop :=
  exists k, k < live_count w
    /\ mkMarker (ns mk) (to_int32 (id mk + (255 * (Z.of_nat k + 1)) mod 2 ^ 32))
         (text mk) (pose mk) (stamp mk) ∈ batch.

(** An instance takes part in the aggregation passes over [w]: its concrete
    factors are in the factor batches; the virtual-wall batch holds a stop, a
    slow-down and a dead-line wall at the poses it reports, under its name,
    and its module-specific walls; each of its diagnostic markers is in the
    batch of its kind, in the block of a live entry. *)
Definition takes_part_in_passes (w : World) (inst : Scene.t) : Prop :=
  (forall now, behavior (Scene.get_steering_factor inst) <> UNKNOWN ->
     Scene.get_steering_factor inst
       ∈ last_factors (pub_steering_factors_ (publishSteeringFactor now w)))
  /\ (forall now, behavior (Scene.get_velocity_factor inst) <> UNKNOWN ->
     Scene.get_velocity_factor inst
       ∈ last_factors (pub_velocity_factors_ (publishVelocityFactor now w)))
  /\ (forall now p, Scene.getStopPose inst = Some p ->
     mkMarker "stop_virtual_wall" 255 (Scene.name inst) p now
       ∈ last_markers (pub_virtual_wall_ (publishVirtualWall now w)))
  /\ (forall now p, Scene.getSlowPose inst = Some p ->
     mkMarker "slow_down_virtual_wall" 255 (Scene.name inst) p now
       ∈ last_markers (pub_virtual_wall_ (publishVirtualWall now w)))
  /\ (forall now p, Scene.getDeadPose inst = Some p ->
     mkMarker "dead_line_virtual_wall" 255 (Scene.name inst) p now
       ∈ last_markers (pub_virtual_wall_ (publishVirtualWall now w)))
  /\ (forall now mk, mk ∈ Scene.getModuleVirtualWall inst ->
     mk ∈ last_markers (pub_virtual_wall_ (publishVirtualWall now w)))
  /\ (forall mk, mk ∈ Scene.getInfoMarkers inst ->
     in_some_block w (marker_batches w).1.1 mk)
  /\ (forall mk, mk ∈ Scene.getDebugMarkers inst ->
     in_some_block w (marker_batches w).1.2 mk)
  /\ (forall mk, mk ∈ Scene.getDrivableLanesMarkers inst ->
     in_some_block w (marker_batches w).2 mk).

(** ** Sample inputs *)

Definition sample_module (module_name : string) (stop : option Pose)
    (info : list Marker) (steering : Factor) : Scene.t :=
  Scene.mk module_name None None [] 0 0 0 false stop None None []
    info [] [] steering (mkFactor UNKNOWN 0).

Definition lane_change : Scene.t :=
  sample_module "lane_change" (Some 7) [mkMarker "path" 0 "" 1 0]
    (mkFactor (CONCRETE 3) 0).

Definition avoidance : Scene.t :=
  sample_module "avoidance" (Some 9) [mkMarker "path" 0 "" 2 0]
    (mkFactor UNKNOWN 0).

(** A manager whose owner holds one instance, and one whose owner holds
    two. *)
Definition one_instance : World :=
  SceneModuleManagerInterface {[ 0 := lane_change ]} "lane_change".

Definition two_instances : World :=
  SceneModuleManagerInterface {[ 0 := lane_change; 1 := avoidance ]} "manager".

(** Modules whose info markers carry a negative identifier, and the same
    identifier twice. *)
Definition with_negative_id : Scene.t :=
  sample_module "avoidance" None
    [mkMarker "path" 0 "" 2 0; mkMarker "path" (-255) "" 3 0] (mkFactor UNKNOWN 0).

Definition with_repeated_id : Scene.t :=
  sample_module "avoidance" None
    [mkMarker "path" 3 "" 2 0; mkMarker "text" 3 "" 2 0] (mkFactor UNKNOWN 0).


(** [name]. *)
Definition name (w : World) : string := name_ w.


(** * Properties *)

(** ** The operations on the sample inputs *)

Example register_then_destroy_then_prune :
  observers_ <$> run [EvRegister 0 0; EvRegister 1 0; EvDestroy 0] two_instances
    = Some [0; 1]
  /\ observers_ <$> run [EvRegister 0 0; EvRegister 1 0; EvDestroy 0; EvUpdateObserver]
                      two_instances
    = Some [1].
Proof. split; reflexivity. Qed.

Example steering_batch_of_two :
  last_factors
    (pub_steering_factors_
       (publishSteeringFactor 3 (with_observers [0; 1] two_instances)))
  = [mkFactor (CONCRETE 3) 0].
Proof. reflexivity. Qed.

Example info_batch_of_two :
  (marker_batches (with_observers [0; 1] two_instances)).1.1
  = [mkMarker "path" 255 "" 1 0; mkMarker "path" 510 "" 2 0].
Proof. reflexivity. Qed.

Example wall_poses_cleared :
  Scene.stop_pose
    <$> instances (publishVirtualWall 3 (with_observers [0] one_instance)) !! 0
  = Some None.
Proof. reflexivity. Qed.

Example exist_sees_live_entries_only :
  exist (with_observers [0; 5] one_instance) 0 = true
  /\ exist (with_observers [0; 5] one_instance) 5 = false.
Proof. split; reflexivity. Qed.

(** ** Liveness of weak references *)

Lemma expired_true h r : expired h r = true <-> h !! r = None.
Proof. unfold expired, lock. destruct (h !! r); split; congruence. Qed.

Lemma expired_false h r : expired h r = false <-> is_Some (h !! r).
Proof.
  unfold expired, lock. destruct (h !! r) as [m|]; split; try congruence.
  - eauto.
  - intros [x Hx]. discriminate.
Qed.

(** ** Pruning *)

Lemma remove_if_expired_filter (h : gmap nat Scene.t) (l : list nat) :
  remove_if (expired h) l = filter (fun r => is_Some (h !! r)) l.
Proof.
  induction l as [|x l IH]; [reflexivity|].
  cbn [remove_if]. destruct (expired h x) eqn:E.
  - apply expired_true in E. rewrite filter_cons_False; [exact IH|].
    cbn beta. intros [y Hy]. congruence.
  - apply expired_false in E. rewrite filter_cons_True by exact E.
    now rewrite IH.
Qed.

Lemma remove_if_sublist {A : Type} (p : A -> bool) (l : list A) :
  remove_if p l `sublist_of` l.
Proof.
  induction l as [|x l IH]; cbn [remove_if].
  - constructor.
  - destruct (p x); now constructor.
Qed.

Lemma remove_if_all_false {A : Type} (p : A -> bool) (l : list A) :
  Forall (fun x => p x = false) l -> remove_if p l = l.
Proof.
  induction 1 as [|x l Hx _ IH]; cbn [remove_if]; [reflexivity|].
  now rewrite Hx, IH.
Qed.

Lemma remove_if_Forall {A : Type} (p : A -> bool) (l : list A) :
  Forall (fun x => p x = false) (remove_if p l).
Proof.
  induction l as [|x l IH]; cbn [remove_if]; [constructor|].
  destruct (p x) eqn:E; [exact IH|]. now constructor.
Qed.

Lemma remove_if_idem {A : Type} (p : A -> bool) (l : list A) :
  remove_if p (remove_if p l) = remove_if p l.
Proof. apply remove_if_all_false, remove_if_Forall. Qed.

Lemma live_observers_updateObserver w :
  observers_ (updateObserver w) = live_observers w.
Proof. apply remove_if_expired_filter. Qed.

Lemma live_observers_all_live w :
  Forall (fun r => is_Some (instances w !! r)) (observers_ w) ->
  live_observers w = observers_ w.
Proof.
  unfold live_observers. induction 1 as [|x l Hx _ IH]; [reflexivity|].
  rewrite filter_cons_True by exact Hx. now rewrite IH.
Qed.

Lemma live_count_updateObserver w :
  live_count (updateObserver w) = live_count w.
Proof.
  unfold live_count at 1, live_observers at 1.
  change (instances (updateObserver w)) with (instances w).
  rewrite live_observers_updateObserver.
  unfold live_observers. rewrite list_filter_filter.
  unfold live_count, live_observers. f_equal.
  apply list_filter_iff. tauto.
Qed.

(** C3.  A candidate whose weak reference is expired is ignored by
    [registerNewModule]: the call returns and the manager, the observer set in
    particular, and the instances are what they were. *)
Theorem registerNewModule_expired_noop
    (w : World) (observer : SceneModuleObserver) (prev : BehaviorModuleOutput) :
  expired (instances w) observer = true ->
  registerNewModule w observer prev = w
  /\ observers_ (registerNewModule w observer prev) = observers_ w.
Proof.
  intros E. unfold registerNewModule, expired in *.
  destruct (lock (instances w) observer); [discriminate|]. split; reflexivity.
Qed.

(** C6.  [updateObserver] keeps exactly the entries whose instance is alive
    (with their multiplicity), in their order, touches nothing else, and a
    second call changes nothing. *)
Theorem updateObserver_prunes_exactly (w : World) :
  observers_ (updateObserver w)
    = filter (fun r => is_Some (instances w !! r)) (observers_ w)
  /\ (forall r, r ∈ observers_ (updateObserver w)
                <-> r ∈ observers_ w /\ expired (instances w) r = false)
  /\ observers_ (updateObserver w) `sublist_of` observers_ w
  /\ instances (updateObserver w) = instances w
  /\ idle_module_ptr_ (updateObserver w) = idle_module_ptr_ w
  /\ updateObserver (updateObserver w) = updateObserver w.
Proof.
  split; [apply remove_if_expired_filter|].
  split.
  { intros r. cbn. rewrite remove_if_expired_filter, list_elem_of_filter.
    rewrite expired_false. tauto. }
  split; [apply remove_if_sublist|].
  split; [reflexivity|]. split; [reflexivity|].
  unfold updateObserver at 1 3. cbn.
  unfold with_observers; cbn. now rewrite remove_if_idem.
Qed.

(** ** The store of instances under the manager's operations

    No operation of the manager creates or destroys an instance: the loops
    that call a hook of an instance replace its state and keep its key. *)

Lemma exit_observers_alive h obs r :
  is_Some (exit_observers h obs !! r) <-> is_Some (h !! r).
Proof.
  revert h. induction obs as [|o obs IH]; intros h; cbn [exit_observers]; [tauto|].
  unfold lock. destruct (h !! o) as [m|] eqn:E; [|apply IH].
  rewrite IH. destruct (decide (o = r)) as [->|Hne].
  - rewrite lookup_insert_eq, E. split; eauto.
  - now rewrite lookup_insert_ne.
Qed.

Lemma wall_loop_alive now marker_id h obs markers r :
  is_Some ((wall_loop now marker_id h obs markers).1 !! r) <-> is_Some (h !! r).
Proof.
  revert h markers. induction obs as [|o obs IH]; intros h markers;
    cbn [wall_loop]; [cbn; tauto|].
  unfold lock. destruct (h !! o) as [m|] eqn:E; [|apply IH].
  rewrite IH. destruct (decide (o = r)) as [->|Hne].
  - rewrite lookup_insert_eq, E. split; eauto.
  - now rewrite lookup_insert_ne.
Qed.

Lemma registerNewModule_alive w observer prev r :
  is_Some (instances (registerNewModule w observer prev) !! r)
  <-> is_Some (instances w !! r).
Proof.
  unfold registerNewModule, lock.
  destruct (instances w !! observer) as [m|] eqn:E; [|tauto].
  cbn. destruct (decide (observer = r)) as [->|Hne].
  - rewrite lookup_insert_eq, E. split; eauto.
  - now rewrite lookup_insert_ne.
Qed.

Lemma publishVirtualWall_alive now w r :
  is_Some (instances (publishVirtualWall now w) !! r) <-> is_Some (instances w !! r).
Proof.
  unfold publishVirtualWall.
  pose proof (wall_loop_alive now uint8_max (instances w) (observers_ w) [] r) as H.
  destruct (wall_loop now uint8_max (instances w) (observers_ w) []) as [h mk].
  exact H.
Qed.

Lemma publishVirtualWall_observers now w :
  observers_ (publishVirtualWall now w) = observers_ w.
Proof.
  unfold publishVirtualWall.
  now destruct (wall_loop now uint8_max (instances w) (observers_ w) []).
Qed.

Lemma publishMarker_instances w : instances (publishMarker w) = instances w.
Proof. unfold publishMarker. now destruct (marker_batches w) as [[? ?] ?]. Qed.

Lemma publishMarker_observers w : observers_ (publishMarker w) = observers_ w.
Proof. unfold publishMarker. now destruct (marker_batches w) as [[? ?] ?]. Qed.


Lemma step_alive e w w' r :
  step e w = Some w' -> e <> EvDestroy r ->
  is_Some (instances w !! r) -> is_Some (instances w' !! r).
Proof.
  destruct e; cbn [step]; intros H Hd; try (injection H as <-); cbn; try tauto.
  - apply registerNewModule_alive.
  - apply exit_observers_alive.
  - unfold isExecutionRequested in H.
    destruct (idle_module_ptr_ w); [|discriminate]. injection H as <-. tauto.
  - apply publishVirtualWall_alive.
  - now rewrite publishMarker_instances.
  - destruct (decide (r0 = r)) as [->|Hne]; [congruence|].
    now rewrite lookup_delete_ne.
  - destruct (instances w !! r0) as [m0|] eqn:E; injection H as <-; [|tauto].
    cbn. destruct (decide (r0 = r)) as [->|Hne].
    + rewrite lookup_insert_eq. eauto.
    + now rewrite lookup_insert_ne.
Qed.

(** Where the entries of the observer set come from, and what keeps them. *)
Lemma step_observers_origin e w w' r :
  step e w = Some w' -> r ∈ observers_ w' ->
  r ∈ observers_ w \/ is_Some (instances w !! r).
Proof.
  destruct e; cbn [step]; intros H; try (injection H as <-); cbn; try tauto.
  - unfold registerNewModule, lock.
    destruct (instances w !! observer) as [m|] eqn:E; [|tauto].
    cbn. rewrite elem_of_app, list_elem_of_singleton.
    intros [?| ->]; [tauto|]. right. rewrite E. eauto.
  - rewrite remove_if_expired_filter, list_elem_of_filter. tauto.
  - intros Hin. inversion Hin.
  - unfold isExecutionRequested in H.
    destruct (idle_module_ptr_ w); [|discriminate]. injection H as <-. tauto.
  - rewrite publishVirtualWall_observers. tauto.
  - rewrite publishMarker_observers. tauto.
  - destruct (instances w !! r0); injection H as <-; tauto.
Qed.

Lemma step_observers_kept e w w' r :
  step e w = Some w' -> e <> EvReset ->
  r ∈ observers_ w -> is_Some (instances w !! r) -> r ∈ observers_ w'.
Proof.
  destruct e; cbn [step]; intros H Hr; try (injection H as <-); cbn; try tauto.
  - unfold registerNewModule, lock.
    destruct (instances w !! observer) as [m|] eqn:E; [|tauto].
    cbn. rewrite elem_of_app. tauto.
  - rewrite remove_if_expired_filter, list_elem_of_filter. tauto.
  - unfold isExecutionRequested in H.
    destruct (idle_module_ptr_ w); [|discriminate]. injection H as <-. tauto.
  - rewrite publishVirtualWall_observers. tauto.
  - rewrite publishMarker_observers. tauto.
  - destruct (instances w !! r0); injection H as <-; tauto.
Qed.

(** ** Admission *)

Lemma canLaunchNewModule_nil w : canLaunchNewModule w = true <-> observers_ w = [].
Proof. unfold canLaunchNewModule. destruct (observers_ w); split; congruence. Qed.

Lemma live_count_nil w : observers_ w = [] -> live_count w = 0.
Proof. unfold live_count, live_observers. now intros ->. Qed.

Lemma step_all_live e w w' :
  step e w = Some w' -> (forall r, e <> EvDestroy r) -> all_live w -> all_live w'.
Proof.
  unfold all_live. rewrite !Forall_forall. intros H Hd Hall r Hin.
  destruct (step_observers_origin _ _ _ _ H Hin) as [Ho|Ha].
  - eapply step_alive; eauto.
  - eapply step_alive; eauto.
Qed.

Lemma run_all_live evs w w' :
  run evs w = Some w' -> (forall r, EvDestroy r ∉ evs) -> all_live w -> all_live w'.
Proof.
  revert w. induction evs as [|e evs IH]; intros w; cbn [run].
  - now intros [= <-].
  - destruct (step e w) as [w1|] eqn:E; [|discriminate].
    intros Hrun Hd Hall. apply (IH w1 Hrun).
    + intros r Hin. apply (Hd r). now right.
    + eapply step_all_live; eauto. intros r ->. apply (Hd r). now left.
Qed.

(** C1 (as amended).  In every state reached by a sequence of operations,
    [canLaunchNewModule] is true iff the observer set has no entry at all.
    So it is true only if no entry is alive; it is true right after pruning
    iff no entry is alive; and when no instance was destroyed on the way it
    is true iff no entry is alive. *)
Theorem canLaunchNewModule_admission
    (h0 : gmap nat Scene.t) (manager_name : string) (evs : list event) (w : World) :
  run evs (SceneModuleManagerInterface h0 manager_name) = Some w ->
  (canLaunchNewModule w = true <-> observers_ w = [])
  /\ (canLaunchNewModule w = true -> live_count w = 0)
  /\ (canLaunchNewModule (updateObserver w) = true <-> live_count w = 0)
  /\ ((forall r, EvDestroy r ∉ evs) ->
      (canLaunchNewModule w = true <-> live_count w = 0)).
Proof.
  intros Hrun. split; [apply canLaunchNewModule_nil|].
  split. { rewrite canLaunchNewModule_nil. apply live_count_nil. }
  split.
  { rewrite canLaunchNewModule_nil, live_observers_updateObserver.
    unfold live_count. rewrite length_zero_iff_nil. tauto. }
  intros Hd.
  assert (Hall : all_live w).
  { eapply run_all_live; eauto. constructor. }
  rewrite canLaunchNewModule_nil. unfold live_count.
  rewrite (live_observers_all_live w Hall), length_zero_iff_nil. tauto.
Qed.

(** C1, a witness: register, prune, then ask. *)
Lemma canLaunchNewModule_admission_witness :
  canLaunchNewModule (updateObserver (registerNewModule one_instance 0 0)) = false
  /\ live_count (updateObserver (registerNewModule one_instance 0 0)) = 1.
Proof.
  pose proof (canLaunchNewModule_admission {[ 0 := lane_change ]} "lane_change"
                [EvRegister 0 0; EvUpdateObserver]
                (updateObserver (registerNewModule one_instance 0 0))
                eq_refl) as (_ & _ & _ & H).
  assert (Hd : forall r, EvDestroy r ∉ [EvRegister 0 0; EvUpdateObserver]).
  { intros r Hin. repeat (apply elem_of_cons in Hin as [Hin|Hin]; [discriminate|]).
    inversion Hin. }
  specialize (H Hd). split; [|reflexivity].
  destruct (canLaunchNewModule _) eqn:E; [|reflexivity].
  destruct H as [H _]. specialize (H eq_refl). vm_compute in H. discriminate.
Defined.

(** C1, the claim as stated fails: once its owner has destroyed the only
    registered instance, no entry of the observer set is alive, yet the entry
    is still there and [canLaunchNewModule] answers false until the next
    [updateObserver]. *)
Lemma canLaunchNewModule_admission_counterexample :
  exists w,
    run [EvRegister 0 0; EvDestroy 0] one_instance = Some w
    /\ observers_ w = [0]
    /\ live_count w = 0
    /\ canLaunchNewModule w = false.
Proof. eexists. repeat split; vm_compute; reflexivity. Qed.

(** C3, a witness: reference 5 has no instance. *)
Lemma registerNewModule_expired_noop_witness :
  registerNewModule one_instance 5 0 = one_instance
  /\ observers_ (registerNewModule one_instance 5 0) = observers_ one_instance.
Proof. apply (registerNewModule_expired_noop one_instance 5 0). reflexivity. Defined.

(** ** The idle module *)

(** C2 (as amended).  [isExecutionRequested] probes the idle module the
    manager holds at the call and never creates one: it has a result iff the
    slot is filled, it leaves the slot filled with the probed module, and
    after [getIdleModule] has moved the module out there is nothing to probe
    and the call has no defined result. *)
Theorem isExecutionRequested_needs_idle (w : World) (prev : BehaviorModuleOutput) :
  (isExecutionRequested w prev = None <-> idle_module_ptr_ w = None)
  /\ (forall b w', isExecutionRequested w prev = Some (b, w') ->
        exists m,
          idle_module_ptr_ w = Some m
          /\ idle_module_ptr_ w'
             = Some (Scene.updateData
                       (Scene.setPreviousModuleOutput prev
                          (Scene.setData (planner_data_ w) m)))
          /\ b = Scene.execution_requested m
          /\ observers_ w' = observers_ w
          /\ instances w' = instances w)
  /\ (getIdleModule w).1 = idle_module_ptr_ w
  /\ idle_module_ptr_ (getIdleModule w).2 = None
  /\ isExecutionRequested (getIdleModule w).2 prev = None.
Proof.
  unfold isExecutionRequested.
  split.
  { destruct (idle_module_ptr_ w); split; congruence. }
  split.
  { intros b w' H. destruct (idle_module_ptr_ w) as [m|]; [|discriminate].
    injection H as <- <-. exists m. repeat split. }
  repeat split.
Qed.

(** C2, the claim as stated fails: a manager holding an idle module hands it
    over, and the probe that follows finds the slot empty; nothing recreates
    the module. *)
Lemma isExecutionRequested_after_transfer_counterexample :
  let w := with_idle (Some lane_change) one_instance in
  (getIdleModule w).1 = Some lane_change
  /\ idle_module_ptr_ (getIdleModule w).2 = None
  /\ isExecutionRequested (getIdleModule w).2 0 = None.
Proof. repeat split. Qed.

(** ** Reset *)

Lemma iter_onExit_swap k m :
  Nat.iter k Scene.onExit (Scene.onExit m) = Scene.onExit (Nat.iter k Scene.onExit m).
Proof. induction k as [|k IH]; [reflexivity|]. now rewrite !Nat.iter_succ, IH. Qed.

Lemma occurrences_cons_eq r obs : occurrences r (r :: obs) = S (occurrences r obs).
Proof. unfold occurrences. now rewrite filter_cons_True. Qed.

Lemma occurrences_cons_ne o r obs : o <> r -> occurrences r (o :: obs) = occurrences r obs.
Proof. intros H. unfold occurrences. now rewrite filter_cons_False. Qed.

Lemma exit_observers_lookup h obs r :
  exit_observers h obs !! r = Nat.iter (occurrences r obs) Scene.onExit <$> h !! r.
Proof.
  revert h. induction obs as [|o obs IH]; intros h; cbn [exit_observers].
  - cbn. now destruct (h !! r).
  - unfold lock. destruct (decide (o = r)) as [->|Hne].
    + rewrite occurrences_cons_eq.
      destruct (h !! r) as [m|] eqn:E.
      * rewrite IH, lookup_insert_eq. unfold fmap, option_fmap, option_map.
        f_equal. apply iter_onExit_swap.
      * rewrite IH, E. reflexivity.
    + rewrite (occurrences_cons_ne _ _ _ Hne).
      destruct (h !! o) as [m|] eqn:E.
      * now rewrite IH, lookup_insert_ne.
      * apply IH.
Qed.

Lemma exited_iter_onExit k m :
  Scene.exited (Nat.iter k Scene.onExit m) = Scene.exited m + k.
Proof.
  induction k as [|k IH]; [cbn; lia|].
  rewrite Nat.iter_succ. cbn [Scene.onExit Scene.exited]. rewrite IH. lia.
Qed.

(** C5 (as amended).  [reset] calls [onExit] once for every entry of the
    observer set whose instance is alive, so an instance is exited as many
    times as it has entries (once when it was registered once) and is
    otherwise unchanged; instances without an entry are not touched.  The
    observer set is then empty, the idle module, if there was one, has been
    exited and released, and an empty batch has been sent on the debug marker
    channel. *)
Theorem reset_exits_every_entry (w : World) :
  (forall r, instances (reset w).2 !! r
             = Nat.iter (occurrences r (observers_ w)) Scene.onExit <$> instances w !! r)
  /\ (forall r m, instances w !! r = Some m ->
        exists m', instances (reset w).2 !! r = Some m'
                   /\ Scene.exited m' = Scene.exited m + occurrences r (observers_ w))
  /\ (forall r m, instances w !! r = Some m -> occurrences r (observers_ w) = 1 ->
        instances (reset w).2 !! r = Some (Scene.onExit m))
  /\ observers_ (reset w).2 = []
  /\ idle_module_ptr_ (reset w).2 = None
  /\ (reset w).1 = Scene.onExit <$> idle_module_ptr_ w
  /\ pub_debug_marker_ (reset w).2 = [] :: pub_debug_marker_ w.
Proof.
  split; [intros r; apply exit_observers_lookup|].
  split.
  { intros r m H. cbn. rewrite exit_observers_lookup, H. cbn.
    eexists. split; [reflexivity|]. apply exited_iter_onExit. }
  split.
  { intros r m H Hone. cbn. rewrite exit_observers_lookup, H, Hone. reflexivity. }
  repeat split.
Qed.

(** C5, the claim as stated fails: [registerNewModule] accepts the same
    candidate twice, the instance then has two entries, and [reset] calls its
    [onExit] twice. *)
Lemma reset_exits_every_entry_counterexample :
  exists w,
    run [EvRegister 0 0; EvRegister 0 0] one_instance = Some w
    /\ observers_ w = [0; 0]
    /\ Scene.exited <$> instances w !! 0 = Some 0
    /\ Scene.exited <$> instances (reset w).2 !! 0 = Some 2.
Proof. eexists. repeat split; vm_compute; reflexivity. Qed.

(** ** Steering and velocity factors *)

Lemma behavior_neq_spec a b : behavior_neq a b = true <-> a <> b.
Proof.
  destruct a as [|x], b as [|y]; cbn [behavior_neq].
  - split; [discriminate|congruence].
  - split; [discriminate|reflexivity].
  - split; [discriminate|reflexivity].
  - rewrite negb_true_iff, N.eqb_neq. split; congruence.
Qed.

Lemma factor_loop_filter get h obs acc :
  factor_loop get h obs acc
  = acc ++ filter (fun f => behavior f <> UNKNOWN) (get <$> live_instances h obs).
Proof.
  revert acc. induction obs as [|o obs IH]; intros acc; cbn [factor_loop].
  - cbn. now rewrite app_nil_r.
  - unfold live_instances, lock. cbn [omap list_omap].
    destruct (h !! o) as [inst|]; [|apply IH].
    rewrite fmap_cons.
    destruct (behavior_neq (behavior (get inst)) UNKNOWN) eqn:E.
    + apply behavior_neq_spec in E. rewrite filter_cons_True by exact E.
      rewrite IH, <- app_assoc. reflexivity.
    + rewrite filter_cons_False; [apply IH|].
      intros H. apply behavior_neq_spec in H. congruence.
Qed.

Lemma factor_batch_elem get h obs r m :
  r ∈ obs -> h !! r = Some m ->
  (get m ∈ factor_loop get h obs [] <-> behavior (get m) <> UNKNOWN).
Proof.
  intros Hin Hr. rewrite factor_loop_filter, app_nil_l, list_elem_of_filter.
  split; [tauto|]. intros H. split; [exact H|].
  apply list_elem_of_fmap. exists m. split; [reflexivity|].
  apply list_elem_of_omap. eauto.
Qed.

(** C10.  The steering batch and the velocity batch hold, in the order of the
    entries, the factor of every live instance whose classification is not
    [UNKNOWN], and nothing else: a live instance's factor is in the batch iff
    its classification is concrete. *)
Theorem factor_filtering (now : Time) (w : World) :
  let steering := last_factors (pub_steering_factors_ (publishSteeringFactor now w)) in
  let velocity := last_factors (pub_velocity_factors_ (publishVelocityFactor now w)) in
  steering = filter (fun f => behavior f <> UNKNOWN)
               (Scene.get_steering_factor <$> live_instances (instances w) (observers_ w))
  /\ velocity = filter (fun f => behavior f <> UNKNOWN)
                  (Scene.get_velocity_factor <$> live_instances (instances w) (observers_ w))
  /\ (forall f, f ∈ steering -> behavior f <> UNKNOWN)
  /\ (forall f, f ∈ velocity -> behavior f <> UNKNOWN)
  /\ (forall r m, r ∈ observers_ w -> instances w !! r = Some m ->
        (Scene.get_steering_factor m ∈ steering
           <-> behavior (Scene.get_steering_factor m) <> UNKNOWN)
        /\ (Scene.get_velocity_factor m ∈ velocity
              <-> behavior (Scene.get_velocity_factor m) <> UNKNOWN)).
Proof.
  cbn. rewrite !factor_loop_filter, !app_nil_l.
  split; [reflexivity|]. split; [reflexivity|].
  split. { intros f Hf. now apply list_elem_of_filter in Hf. }
  split. { intros f Hf. now apply list_elem_of_filter in Hf. }
  intros r m Hin Hr.
  pose proof (factor_batch_elem Scene.get_steering_factor _ _ _ _ Hin Hr) as Hs.
  pose proof (factor_batch_elem Scene.get_velocity_factor _ _ _ _ Hin Hr) as Hv.
  rewrite factor_loop_filter, app_nil_l in Hs, Hv. tauto.
Qed.

(** ** Diagnostic markers *)

Lemma marker_loop_collect h obs marker_id info debug drivable :
  (marker_loop h obs marker_id info debug drivable).1.1.2
    = info ++ collect Scene.getInfoMarkers h obs marker_id
  /\ (marker_loop h obs marker_id info debug drivable).1.2
    = debug ++ collect Scene.getDebugMarkers h obs marker_id
  /\ (marker_loop h obs marker_id info debug drivable).2
    = drivable ++ collect Scene.getDrivableLanesMarkers h obs marker_id.
Proof.
  revert marker_id info debug drivable.
  induction obs as [|o obs IH]; intros marker_id info debug drivable;
    cbn [marker_loop collect].
  - cbn. now rewrite !app_nil_r.
  - unfold lock. destruct (h !! o) as [inst|]; [|apply IH].
    destruct (IH (uint32_add marker_id uint8_max)
                (push_offset marker_id (Scene.getInfoMarkers inst) info)
                (push_offset marker_id (Scene.getDebugMarkers inst) debug)
                (push_offset marker_id (Scene.getDrivableLanesMarkers inst) drivable))
      as (-> & -> & ->).
    unfold push_offset. now rewrite <- !app_assoc.
Qed.

(** The batches when the observer set has entries, or no idle module is
    held: what the loop collected. *)
Lemma marker_batches_collect w :
  observers_ w <> [] \/ idle_module_ptr_ w = None ->
  marker_batches w
  = (collect Scene.getInfoMarkers (instances w) (observers_ w) uint8_max,
     collect Scene.getDebugMarkers (instances w) (observers_ w) uint8_max,
     collect Scene.getDrivableLanesMarkers (instances w) (observers_ w) uint8_max).
Proof.
  intros H. unfold marker_batches.
  destruct (marker_loop_collect (instances w) (observers_ w) uint8_max [] [] [])
    as (Hi & Hd & Hl).
  destruct (marker_loop (instances w) (observers_ w) uint8_max [] [] [])
    as [[[i info] debug] drivable].
  cbn in Hi, Hd, Hl. subst.
  destruct (observers_ w) as [|o obs].
  - destruct H as [H|H]; [congruence|]. now rewrite H.
  - reflexivity.
Qed.

Lemma live_count_pos_observers w : 0 < live_count w -> observers_ w <> [].
Proof. intros H E. rewrite (live_count_nil w E) in H. lia. Qed.

(** C7 (as amended).  The idle module's markers are sent iff the observer
    set has no entry at all and an idle module is held; the three batches are
    then exactly its info, debug and drivable-lane markers.  As soon as the
    observer set has an entry, alive or not, the idle module plays no part:
    the batches are those of a manager without idle module, that is the
    offset markers of the live instances.  In particular this is so when at
    least one entry is alive. *)
Theorem publishMarker_idle_substitution (w : World) :
  (forall idle, observers_ w = [] -> idle_module_ptr_ w = Some idle ->
     marker_batches w
     = (Scene.getInfoMarkers idle, Scene.getDebugMarkers idle,
        Scene.getDrivableLanesMarkers idle))
  /\ (observers_ w <> [] ->
      marker_batches w = marker_batches (with_idle None w)
      /\ marker_batches w
         = (collect Scene.getInfoMarkers (instances w) (observers_ w) uint8_max,
            collect Scene.getDebugMarkers (instances w) (observers_ w) uint8_max,
            collect Scene.getDrivableLanesMarkers (instances w) (observers_ w) uint8_max))
  /\ (0 < live_count w -> marker_batches w = marker_batches (with_idle None w))
  /\ pub_info_marker_ (publishMarker w) = (marker_batches w).1.1 :: pub_info_marker_ w
  /\ pub_debug_marker_ (publishMarker w) = (marker_batches w).1.2 :: pub_debug_marker_ w
  /\ pub_drivable_lanes_ (publishMarker w) = (marker_batches w).2 :: pub_drivable_lanes_ w.
Proof.
  assert (Hne : observers_ w <> [] ->
                marker_batches w = marker_batches (with_idle None w)).
  { intros H. rewrite (marker_batches_collect w) by tauto.
    rewrite (marker_batches_collect (with_idle None w)) by (right; reflexivity).
    reflexivity. }
  split.
  { intros idle Ho Hi. unfold marker_batches. rewrite Ho, Hi. reflexivity. }
  split.
  { intros H. split; [auto|]. apply marker_batches_collect. tauto. }
  split.
  { intros H. apply Hne, live_count_pos_observers, H. }
  unfold publishMarker. destruct (marker_batches w) as [[info debug] drivable].
  repeat split.
Qed.

(** C7, the claim as stated fails: the only entry of the observer set is
    expired, so no instance is alive, and an idle module with an info marker
    is held; the info batch is empty, not the idle module's. *)
Lemma publishMarker_idle_substitution_counterexample :
  let w := with_idle (Some lane_change)
             (with_observers [5] one_instance) in
  live_count w = 0
  /\ idle_module_ptr_ w = Some lane_change
  /\ Scene.getInfoMarkers lane_change = [mkMarker "path" 0 "" 1 0]
  /\ marker_batches w = ([], [], [])
  /\ last_markers (pub_info_marker_ (publishMarker w)) = [].
Proof. repeat split. Qed.

(** ** Marker identifiers *)

Lemma to_int32_small z : (0 <= z < 2 ^ 31)%Z -> to_int32 z = z.
Proof.
  intros H. unfold to_int32. rewrite Z.mod_small by lia.
  destruct (z <? 2 ^ 31)%Z eqn:E; [reflexivity|]. apply Z.ltb_ge in E. lia.
Qed.

Lemma uint32_add_small a b : (0 <= a + b < 2 ^ 32)%Z -> uint32_add a b = (a + b)%Z.
Proof. intros H. unfold uint32_add. now apply Z.mod_small. Qed.

Lemma block_ids (l : list Marker) (b : Z) :
  Forall (fun mk => (0 <= id mk < uint8_max)%Z) l ->
  (0 <= b)%Z -> (b + uint8_max < 2 ^ 31)%Z ->
  id <$> (offset_marker b <$> l) = (fun x => (x + b)%Z) <$> (id <$> l).
Proof.
  intros Hl Hb Hlt. induction Hl as [|mk l Hmk _ IH]; [reflexivity|].
  rewrite !fmap_cons, IH. f_equal. cbn [offset_marker id]. unfold id_add.
  apply to_int32_small. lia.
Qed.

Lemma collect_ids get h obs (b : Z) :
  Forall (fun inst => local_ids_ok (get inst)) (live_instances h obs) ->
  (0 <= b)%Z ->
  (b + uint8_max * Z.of_nat (length (live_instances h obs)) < 2 ^ 31)%Z ->
  NoDup (id <$> collect get h obs b)
  /\ Forall (fun x => (b <= x)%Z) (id <$> collect get h obs b).
Proof.
  revert b. induction obs as [|o obs IH]; intros b Hok Hb Hlt.
  - cbn. split; constructor.
  - unfold live_instances in *. cbn [collect omap list_omap] in *.
    destruct (h !! o) as [inst|]; [|now apply IH].
    apply Forall_cons in Hok as [[Hnd Hrange] Hok].
    cbn [length] in Hlt. unfold uint8_max in *.
    assert (Hadd : uint32_add b 255 = (b + 255)%Z) by (apply uint32_add_small; lia).
    rewrite Hadd.
    destruct (IH (b + 255)%Z Hok) as [IHnd IHge]; [lia|lia|].
    rewrite fmap_app, (block_ids _ b Hrange Hb) by (unfold uint8_max; lia).
    assert (Hblock : Forall (fun x => (b <= x < b + 255)%Z)
                       ((fun x => (x + b)%Z) <$> (id <$> get inst))).
    { rewrite Forall_fmap, Forall_fmap. eapply Forall_impl; [exact Hrange|].
      cbn. intros mk ?. lia. }
    split.
    + apply NoDup_app. split; [|split; [|exact IHnd]].
      * assert (Inj (=) (=) (fun x : Z => (x + b)%Z)) by (intros x y ?; lia).
        now apply NoDup_fmap_2.
      * intros x Hx Hx'.
        rewrite Forall_forall in Hblock, IHge.
        specialize (Hblock x Hx). specialize (IHge x Hx'). lia.
    + apply Forall_app. split.
      * eapply Forall_impl; [exact Hblock|]. cbn. intros; lia.
      * eapply Forall_impl; [exact IHge|]. cbn. intros; lia.
Qed.

Lemma live_count_live_instances w :
  live_count w = length (live_instances (instances w) (observers_ w)).
Proof.
  unfold live_count, live_observers, live_instances.
  induction (observers_ w) as [|o obs IH]; [reflexivity|].
  cbn [omap list_omap]. destruct (instances w !! o) as [inst|] eqn:E.
  - rewrite filter_cons_True by (rewrite E; eauto). cbn. now rewrite IH.
  - rewrite filter_cons_False; [exact IH|]. rewrite E. intros [? ?]. discriminate.
Qed.

Lemma offset_shifted (l : list Marker) (b : Z) :
  Forall (fun mk => (0 <= id mk < uint8_max)%Z) l ->
  (0 <= b)%Z -> (b + uint8_max < 2 ^ 31)%Z ->
  offset_marker b <$> l = shifted b <$> l.
Proof.
  intros Hl Hb Hlt. apply list_fmap_ext. intros i mk Hmk.
  rewrite Forall_forall in Hl.
  pose proof (Hl mk (list_elem_of_lookup_2 _ _ _ Hmk)) as Hr.
  unfold offset_marker, shifted, id_add. f_equal.
  apply to_int32_small. lia.
Qed.

Lemma collect_expected get h obs (b : Z) :
  Forall (fun inst => local_ids_ok (get inst)) (live_instances h obs) ->
  (0 <= b)%Z ->
  (b + uint8_max * Z.of_nat (length (live_instances h obs)) < 2 ^ 31)%Z ->
  collect get h obs b
  = concat (imap (fun k inst => shifted (b + 255 * Z.of_nat k) <$> get inst)
              (live_instances h obs)).
Proof.
  revert b. induction obs as [|o obs IH]; intros b Hok Hb Hlt; [reflexivity|].
  unfold live_instances in *. cbn [collect omap list_omap] in *.
  destruct (h !! o) as [inst|]; [|now apply IH].
  apply Forall_cons in Hok as [[Hnd Hrange] Hok].
  cbn [length] in Hlt. unfold uint8_max in *.
  rewrite uint32_add_small by lia.
  rewrite imap_cons. cbn [concat]. f_equal.
  - rewrite (offset_shifted _ b Hrange Hb) by (unfold uint8_max; lia).
    replace (b + 255 * Z.of_nat 0)%Z with b by lia. reflexivity.
  - rewrite IH by (try exact Hok; lia).
    f_equal. apply imap_ext. intros k x _. cbn.
    replace (b + 255 + 255 * Z.of_nat k)%Z with (b + 255 * Z.of_nat (S k))%Z by lia.
    reflexivity.
Qed.

Lemma collect_expected_blocks get w :
  Forall (fun inst => local_ids_ok (get inst))
    (live_instances (instances w) (observers_ w)) ->
  (uint8_max * (Z.of_nat (live_count w) + 1) < 2 ^ 31)%Z ->
  collect get (instances w) (observers_ w) uint8_max
  = expected_blocks get (live_instances (instances w) (observers_ w))
  /\ NoDup (id <$> expected_blocks get (live_instances (instances w) (observers_ w))).
Proof.
  intros Hok Hlt. rewrite live_count_live_instances in Hlt.
  assert (E : collect get (instances w) (observers_ w) uint8_max
              = expected_blocks get (live_instances (instances w) (observers_ w))).
  { rewrite collect_expected; [|exact Hok|unfold uint8_max; lia|unfold uint8_max in *; lia].
    unfold expected_blocks. f_equal. apply imap_ext. intros k x _. cbn.
    unfold uint8_max.
    replace (255 + 255 * Z.of_nat k)%Z with (255 * (Z.of_nat k + 1))%Z by lia.
    reflexivity. }
  split; [exact E|]. rewrite <- E.
  apply collect_ids; [exact Hok|unfold uint8_max; lia|unfold uint8_max in *; lia].
Qed.

(** C8 (as amended).  When the markers of every live instance carry local
    identifiers that are non-negative, below the block size 255 and distinct
    within a marker set, each of the three batches of one [publishMarker]
    pass holds, for the k-th live instance (k from 0) in the order of the
    entries, its markers with exactly 255 * (k + 1) added to the identifier
    and nothing else changed; the identifiers of a batch are then pairwise
    distinct, however the local identifiers of different instances collide.
    This holds for two live instances and for any number that keeps the
    identifiers within 31 bits. *)
Theorem publishMarker_blocks_distinct (w : World) :
  Forall module_ids_ok (live_instances (instances w) (observers_ w)) ->
  0 < live_count w ->
  (uint8_max * (Z.of_nat (live_count w) + 1) < 2 ^ 31)%Z ->
  let live := live_instances (instances w) (observers_ w) in
  last_markers (pub_info_marker_ (publishMarker w))
    = expected_blocks Scene.getInfoMarkers live
  /\ last_markers (pub_debug_marker_ (publishMarker w))
    = expected_blocks Scene.getDebugMarkers live
  /\ last_markers (pub_drivable_lanes_ (publishMarker w))
    = expected_blocks Scene.getDrivableLanesMarkers live
  /\ NoDup (id <$> last_markers (pub_info_marker_ (publishMarker w)))
  /\ NoDup (id <$> last_markers (pub_debug_marker_ (publishMarker w)))
  /\ NoDup (id <$> last_markers (pub_drivable_lanes_ (publishMarker w))).
Proof.
  intros Hok Hpos Hlt live.
  assert (Hb : marker_batches w
    = (collect Scene.getInfoMarkers (instances w) (observers_ w) uint8_max,
       collect Scene.getDebugMarkers (instances w) (observers_ w) uint8_max,
       collect Scene.getDrivableLanesMarkers (instances w) (observers_ w) uint8_max)).
  { apply marker_batches_collect. left. now apply live_count_pos_observers. }
  destruct (collect_expected_blocks Scene.getInfoMarkers w) as [Ei Ni];
    [eapply Forall_impl; [exact Hok|]; intros inst H; apply H|exact Hlt|].
  destruct (collect_expected_blocks Scene.getDebugMarkers w) as [Ed Nd];
    [eapply Forall_impl; [exact Hok|]; intros inst H; apply H|exact Hlt|].
  destruct (collect_expected_blocks Scene.getDrivableLanesMarkers w) as [El Nl];
    [eapply Forall_impl; [exact Hok|]; intros inst H; apply H|exact Hlt|].
  unfold publishMarker. rewrite Hb, Ei, Ed, El. cbn. tauto.
Qed.

(** C8, a witness: two live instances whose info markers both carry the local
    identifier 0. *)
Lemma publishMarker_blocks_distinct_witness :
  last_markers (pub_info_marker_ (publishMarker (with_observers [0; 1] two_instances)))
  = [mkMarker "path" 255 "" 1 0; mkMarker "path" 510 "" 2 0]
  /\ NoDup (id <$> last_markers
              (pub_info_marker_ (publishMarker (with_observers [0; 1] two_instances)))).
Proof.
  assert (H1 : Forall module_ids_ok
                 (live_instances (instances (with_observers [0; 1] two_instances))
                    (observers_ (with_observers [0; 1] two_instances)))).
  { apply (bool_decide_unpack _). vm_compute. exact I. }
  assert (H2 : 0 < live_count (with_observers [0; 1] two_instances)).
  { vm_compute. lia. }
  assert (H3 : (uint8_max
                * (Z.of_nat (live_count (with_observers [0%nat; 1%nat] two_instances)) + 1)
                < 2 ^ 31)%Z).
  { vm_compute. reflexivity. }
  destruct (publishMarker_blocks_distinct (with_observers [0; 1] two_instances) H1 H2 H3)
    as (Hi & _ & _ & Hn & _).
  split; [|exact Hn]. rewrite Hi. reflexivity.
Defined.

(** C8, the claim as stated fails.  Two live instances, registered one after
    the other, whose info markers collide on the local identifier 0 and whose
    local identifiers are all below 255: a negative local identifier of the
    second lands in the block of the first.  And two markers of one instance
    that share a local identifier share it in the batch. *)
Lemma publishMarker_blocks_distinct_counterexample :
  let negative :=
    registerNewModule
      (registerNewModule
         (SceneModuleManagerInterface {[ 0 := lane_change; 1 := with_negative_id ]}
            "manager") 0 0) 1 0 in
  let repeated :=
    registerNewModule
      (registerNewModule
         (SceneModuleManagerInterface {[ 0 := lane_change; 1 := with_repeated_id ]}
            "manager") 0 0) 1 0 in
  (live_count negative = 2
   /\ id <$> Scene.getInfoMarkers lane_change = [0]%Z
   /\ id <$> Scene.getInfoMarkers with_negative_id = [0; -255]%Z
   /\ id <$> last_markers (pub_info_marker_ (publishMarker negative))
      = [255; 510; 255]%Z
   /\ ~ NoDup (id <$> last_markers (pub_info_marker_ (publishMarker negative))))
  /\ (live_count repeated = 2
      /\ id <$> Scene.getInfoMarkers with_repeated_id = [3; 3]%Z
      /\ id <$> last_markers (pub_info_marker_ (publishMarker repeated))
         = [255; 513; 513]%Z
      /\ ~ NoDup (id <$> last_markers (pub_info_marker_ (publishMarker repeated)))).
Proof.
  cbn zeta. split.
  - split; [reflexivity|]. split; [reflexivity|]. split; [reflexivity|].
    split; [reflexivity|].
    intros H. apply (bool_decide_pack _) in H. vm_compute in H. exact H.
  - split; [reflexivity|]. split; [reflexivity|]. split; [reflexivity|].
    intros H. apply (bool_decide_pack _) in H. vm_compute in H. exact H.
Qed.


(** ** Virtual walls *)

Lemma wall_body_app now marker_id inst markers :
  wall_body now marker_id inst markers = markers ++ wall_body now marker_id inst [].
Proof.
  unfold wall_body, appendMarkerArray.
  destruct (Scene.getStopPose inst), (Scene.getSlowPose inst), (Scene.getDeadPose inst);
    cbn [app]; rewrite <- ?app_assoc; reflexivity.
Qed.

Lemma wall_loop_keeps now marker_id h obs markers mk :
  mk ∈ markers -> mk ∈ (wall_loop now marker_id h obs markers).2.
Proof.
  revert h markers. induction obs as [|o obs IH]; intros h markers Hin;
    cbn [wall_loop]; [exact Hin|].
  unfold lock. destruct (h !! o) as [inst|]; [|now apply IH].
  apply IH. rewrite wall_body_app, elem_of_app. now left.
Qed.

Lemma wall_loop_visits now marker_id h obs markers r inst mk :
  r ∈ obs -> h !! r = Some inst ->
  mk ∈ wall_body now marker_id inst [] ->
  mk ∈ (wall_loop now marker_id h obs markers).2.
Proof.
  revert h markers. induction obs as [|o obs IH]; intros h markers Hin Hr Hmk.
  - inversion Hin.
  - cbn [wall_loop]. unfold lock. destruct (decide (o = r)) as [->|Hne].
    + rewrite Hr. apply wall_loop_keeps.
      rewrite wall_body_app, elem_of_app. now right.
    + apply elem_of_cons in Hin as [->|Hin]; [congruence|].
      destruct (h !! o) as [io|]; [|now apply IH].
      apply IH; [exact Hin| |exact Hmk]. now rewrite lookup_insert_ne.
Qed.

(** C4, the code at two live instances that both report a stop pose: the
    two wall markers of the batch carry the same identifier, 255, under the
    same namespace.  [publishVirtualWall] initialises [marker_id] like
    [publishMarker] does and never advances it. *)
Theorem publishVirtualWall_same_identifier :
  let w := with_observers [0; 1] two_instances in
  live_count w = 2
  /\ last_markers (pub_virtual_wall_ (publishVirtualWall 42 w))
     = [mkMarker "stop_virtual_wall" 255 "lane_change" 7 42;
        mkMarker "stop_virtual_wall" 255 "avoidance" 9 42]
  /\ id <$> last_markers (pub_virtual_wall_ (publishVirtualWall 42 w)) = [255; 255]%Z
  /\ ~ NoDup (id <$> last_markers (pub_virtual_wall_ (publishVirtualWall 42 w))).
Proof.
  cbn zeta. split; [reflexivity|]. split; [reflexivity|]. split; [reflexivity|].
  assert (E : id <$> last_markers
                (pub_virtual_wall_
                   (publishVirtualWall 42 (with_observers [0; 1] two_instances)))
              = [255; 255]%Z) by reflexivity.
  rewrite E. intros H. apply NoDup_cons in H as [H _]. apply H. now left.
Qed.

(** ** Registration *)

Lemma collect_visits get h obs (b : Z) r inst mk :
  (0 <= b < 2 ^ 32)%Z ->
  r ∈ obs -> h !! r = Some inst -> mk ∈ get inst ->
  exists k, k < length (live_instances h obs)
    /\ offset_marker ((b + 255 * Z.of_nat k) mod 2 ^ 32) mk ∈ collect get h obs b.
Proof.
  revert b. induction obs as [|o obs IH]; intros b Hb Hin Hr Hmk.
  - inversion Hin.
  - unfold live_instances in *. cbn [collect omap list_omap].
    destruct (decide (o = r)) as [->|Hne].
    + rewrite Hr. exists 0. split; [cbn; lia|].
      rewrite Z.mul_0_r, Z.add_0_r, Z.mod_small by exact Hb.
      rewrite elem_of_app. left. now apply list_elem_of_fmap_2.
    + apply elem_of_cons in Hin as [->|Hin]; [congruence|].
      destruct (h !! o) as [io|].
      * destruct (IH (uint32_add b uint8_max)) as (k & Hk & Hbase); try assumption.
        { unfold uint32_add. apply Z.mod_pos_bound. lia. }
        exists (S k). split; [cbn; lia|].
        rewrite elem_of_app. right.
        unfold uint32_add, uint8_max in Hbase. rewrite Zplus_mod_idemp_l in Hbase.
        replace (b + 255 * Z.of_nat (S k))%Z with (b + 255 + 255 * Z.of_nat k)%Z by lia.
        exact Hbase.
      * now apply IH.
Qed.

Lemma collect_in_some_block get w r inst mk :
  r ∈ observers_ w -> instances w !! r = Some inst -> mk ∈ get inst ->
  in_some_block w (collect get (instances w) (observers_ w) uint8_max) mk.
Proof.
  intros Hin Hr Hmk.
  destruct (collect_visits get (instances w) (observers_ w) uint8_max r inst mk)
    as (k & Hk & Hbase); try assumption; [unfold uint8_max; lia|].
  exists k. split; [now rewrite live_count_live_instances|].
  unfold uint8_max in Hbase.
  replace (255 + 255 * Z.of_nat k)%Z with (255 * (Z.of_nat k + 1))%Z in Hbase by lia.
  exact Hbase.
Qed.

Lemma wall_body_parts now b inst :
  wall_body now b inst []
  = from_option (fun p => createStopVirtualWallMarker p (Scene.name inst) now b) []
      (Scene.getStopPose inst)
    ++ from_option (fun p => createSlowDownVirtualWallMarker p (Scene.name inst) now b) []
         (Scene.getSlowPose inst)
    ++ from_option (fun p => createDeadLineVirtualWallMarker p (Scene.name inst) now b) []
         (Scene.getDeadPose inst)
    ++ Scene.getModuleVirtualWall inst.
Proof.
  unfold wall_body, appendMarkerArray.
  destruct (Scene.getStopPose inst), (Scene.getSlowPose inst), (Scene.getDeadPose inst);
    cbn [from_option app]; rewrite <- ?app_assoc; reflexivity.
Qed.

Lemma wall_body_holds now inst :
  (forall p, Scene.getStopPose inst = Some p ->
     mkMarker "stop_virtual_wall" 255 (Scene.name inst) p now
       ∈ wall_body now uint8_max inst [])
  /\ (forall p, Scene.getSlowPose inst = Some p ->
     mkMarker "slow_down_virtual_wall" 255 (Scene.name inst) p now
       ∈ wall_body now uint8_max inst [])
  /\ (forall p, Scene.getDeadPose inst = Some p ->
     mkMarker "dead_line_virtual_wall" 255 (Scene.name inst) p now
       ∈ wall_body now uint8_max inst [])
  /\ (forall mk, mk ∈ Scene.getModuleVirtualWall inst ->
     mk ∈ wall_body now uint8_max inst []).
Proof.
  rewrite wall_body_parts.
  repeat split.
  - intros p ->. rewrite !elem_of_app. left.
    apply list_elem_of_singleton. reflexivity.
  - intros p ->. rewrite !elem_of_app. right. left.
    apply list_elem_of_singleton. reflexivity.
  - intros p ->. rewrite !elem_of_app. right. right. left.
    apply list_elem_of_singleton. reflexivity.
  - intros mk Hmk. rewrite !elem_of_app. tauto.
Qed.

Lemma live_entry_takes_part w r inst :
  r ∈ observers_ w -> instances w !! r = Some inst -> takes_part_in_passes w inst.
Proof.
  intros Hin Hr.
  assert (Hne : observers_ w <> []).
  { intros E. rewrite E in Hin. inversion Hin. }
  assert (Hwall : forall now mk, mk ∈ wall_body now uint8_max inst [] ->
            mk ∈ last_markers (pub_virtual_wall_ (publishVirtualWall now w))).
  { intros now mk Hmk. unfold publishVirtualWall.
    pose proof (wall_loop_visits now uint8_max (instances w) (observers_ w) []
                  r inst mk Hin Hr Hmk) as H.
    destruct (wall_loop now uint8_max (instances w) (observers_ w) []) as [h mks].
    exact H. }
  unfold takes_part_in_passes.
  rewrite (marker_batches_collect w) by tauto. cbn [fst snd].
  split. { intros now H. cbn. now apply (factor_batch_elem _ _ _ r inst). }
  split. { intros now H. cbn. now apply (factor_batch_elem _ _ _ r inst). }
  split. { intros now p Hp. apply Hwall. now apply (proj1 (wall_body_holds now inst)). }
  split.
  { intros now p Hp. apply Hwall.
    now apply (proj1 (proj2 (wall_body_holds now inst))). }
  split.
  { intros now p Hp. apply Hwall.
    now apply (proj1 (proj2 (proj2 (wall_body_holds now inst)))). }
  split.
  { intros now mk Hmk. apply Hwall.
    now apply (proj2 (proj2 (proj2 (wall_body_holds now inst)))). }
  split; [|split]; intros mk Hmk; eapply collect_in_some_block; eauto.
Qed.

Lemma run_keeps_entry evs w w' r :
  run evs w = Some w' -> EvReset ∉ evs -> EvDestroy r ∉ evs ->
  r ∈ observers_ w -> is_Some (instances w !! r) ->
  r ∈ observers_ w' /\ is_Some (instances w' !! r).
Proof.
  revert w. induction evs as [|e evs IH]; intros w; cbn [run].
  - intros [= <-]. tauto.
  - destruct (step e w) as [w1|] eqn:E; [|discriminate].
    intros Hrun Hreset Hdestroy Hin Halive.
    apply (IH w1 Hrun).
    + intros H. apply Hreset. now right.
    + intros H. apply Hdestroy. now right.
    + eapply step_observers_kept; eauto. intros ->. apply Hreset. now left.
    + eapply step_alive; eauto. intros ->. apply Hdestroy. now left.
Qed.

(** C9 (as amended).  For a candidate whose instance is alive,
    [registerNewModule] hands it the planner data, the previous output and
    the reporter, calls its [onEntry] once, and appends it to the observer
    set, whatever the set already holds.  From then on, after any sequence of
    operations and outside events in which the manager is not reset and the
    instance is not destroyed, the candidate is still a live entry of the
    observer set and takes part in every aggregation pass. *)
Theorem registerNewModule_tracks_live_candidate
    (w : World) (observer : SceneModuleObserver) (prev : BehaviorModuleOutput)
    (m : Scene.t) :
  instances w !! observer = Some m ->
  let w1 := registerNewModule w observer prev in
  observers_ w1 = observers_ w ++ [observer]
  /\ instances w1 !! observer
     = Some (Scene.onEntry
               (Scene.add_reporter (pub_processing_time_ w)
                  (Scene.setPreviousModuleOutput prev
                     (Scene.setData (planner_data_ w) m))))
  /\ (exists m1, instances w1 !! observer = Some m1
                 /\ Scene.entered m1 = S (Scene.entered m))
  /\ takes_part_in_passes w1
       (Scene.onEntry
          (Scene.add_reporter (pub_processing_time_ w)
             (Scene.setPreviousModuleOutput prev
                (Scene.setData (planner_data_ w) m))))
  /\ (forall evs w2,
        run evs w1 = Some w2 -> EvReset ∉ evs -> EvDestroy observer ∉ evs ->
        exists m2, instances w2 !! observer = Some m2
                   /\ observer ∈ observers_ w2
                   /\ observer ∈ live_observers w2
                   /\ takes_part_in_passes w2 m2).
Proof.
  intros Hm w1.
  assert (Hobs : observers_ w1 = observers_ w ++ [observer]).
  { unfold w1, registerNewModule, lock. now rewrite Hm. }
  assert (Hinst : instances w1 !! observer
     = Some (Scene.onEntry
               (Scene.add_reporter (pub_processing_time_ w)
                  (Scene.setPreviousModuleOutput prev
                     (Scene.setData (planner_data_ w) m))))).
  { unfold w1, registerNewModule, lock. rewrite Hm. cbn. apply lookup_insert_eq. }
  assert (Hin : observer ∈ observers_ w1).
  { rewrite Hobs, elem_of_app, list_elem_of_singleton. now right. }
  split; [exact Hobs|]. split; [exact Hinst|].
  split. { eexists. split; [exact Hinst|reflexivity]. }
  split. { eapply live_entry_takes_part; eauto. }
  intros evs w2 Hrun Hreset Hdestroy.
  destruct (run_keeps_entry evs w1 w2 observer Hrun Hreset Hdestroy Hin)
    as [Hin2 [m2 Hm2]]; [rewrite Hinst; eauto|].
  exists m2. split; [exact Hm2|]. split; [exact Hin2|].
  split.
  - unfold live_observers. apply list_elem_of_filter. split; [|exact Hin2].
    rewrite Hm2. eauto.
  - eapply live_entry_takes_part; eauto.
Qed.

(** C9, a witness: a second registration while a first entry is alive; the
    stop wall of the second candidate is in the next virtual-wall batch. *)
Lemma registerNewModule_tracks_live_candidate_witness :
  observers_ (registerNewModule (registerNewModule two_instances 0 4) 1 4) = [0; 1]
  /\ mkMarker "stop_virtual_wall" 255 "avoidance" 9 6
       ∈ last_markers
           (pub_virtual_wall_
              (publishVirtualWall 6
                 (registerNewModule (registerNewModule two_instances 0 4) 1 4))).
Proof.
  destruct (registerNewModule_tracks_live_candidate
              (registerNewModule two_instances 0 4) 1 4 avoidance eq_refl)
    as (Ho & _ & _ & Hp & _).
  split; [exact Ho|].
  destruct Hp as (_ & _ & Hstop & _). apply (Hstop 6 9). reflexivity.
Defined.

(** C9, the claim as stated fails: the candidate is registered, then its
    owner destroys the instance.  The entry is neither pruned nor reset, and
    still no pass shows anything of it, although the instance had a concrete
    steering factor, a stop pose and an info marker. *)
Lemma registerNewModule_tracks_live_candidate_counterexample :
  exists w,
    run [EvRegister 0 0; EvDestroy 0] one_instance = Some w
    /\ 0 ∈ observers_ w
    /\ behavior (Scene.get_steering_factor lane_change) <> UNKNOWN
    /\ Scene.getStopPose lane_change = Some 7
    /\ Scene.getInfoMarkers lane_change <> []
    /\ last_factors (pub_steering_factors_ (publishSteeringFactor 1 w)) = []
    /\ last_markers (pub_virtual_wall_ (publishVirtualWall 1 w)) = []
    /\ marker_batches w = ([], [], []).
Proof.
  eexists. split; [vm_compute; reflexivity|].
  split; [vm_compute; left|].
  split; [discriminate|]. split; [reflexivity|]. split; [discriminate|].
  repeat split.
Qed.


(** * Further properties of the manager *)

(** ** Membership test and admission *)

Lemma exist_true_iff (w : World) (p : SceneModuleObserver) :
  exist w p = true <-> p ∈ observers_ w /\ is_Some (instances w !! p).
Proof.
  unfold exist. rewrite existsb_exists. split.
  - intros (x & Hin & Hx). apply andb_true_iff in Hx as [Hl He].
    apply Nat.eqb_eq in He. subst x.
    apply negb_true_iff, expired_false in Hl.
    split; [now apply list_elem_of_In|exact Hl].
  - intros [Hin Hl]. exists p. split; [now apply list_elem_of_In|].
    apply andb_true_iff. split; [|apply Nat.eqb_refl].
    now apply negb_true_iff, expired_false.
Qed.

(** [exist] answers true exactly for the references that have an entry in
    the observer set and whose instance is alive. *)
Theorem exist_live_entry (w : World) (p : SceneModuleObserver) :
  exist w p = true <-> p ∈ observers_ w /\ is_Some (instances w !! p).
Proof. apply exist_true_iff. Qed.

(** Pruning does not change any answer of [exist]. *)
Theorem exist_updateObserver (w : World) (p : SceneModuleObserver) :
  exist (updateObserver w) p = exist w p.
Proof.
  apply Bool.eq_iff_eq_true. rewrite !exist_true_iff.
  cbn. rewrite remove_if_expired_filter, list_elem_of_filter. tauto.
Qed.

(** After [registerNewModule], [exist] answers true for what it answered
    true before and, if the candidate was alive, for the candidate. *)
Theorem exist_registerNewModule
    (w : World) (observer : SceneModuleObserver) (prev : BehaviorModuleOutput)
    (p : SceneModuleObserver) :
  exist (registerNewModule w observer prev) p
  = exist w p || (negb (expired (instances w) observer) && Nat.eqb observer p).
Proof.
  apply Bool.eq_iff_eq_true.
  rewrite orb_true_iff, andb_true_iff, negb_true_iff, Nat.eqb_eq, expired_false.
  rewrite !exist_true_iff, registerNewModule_alive.
  unfold registerNewModule, lock.
  destruct (instances w !! observer) as [m|] eqn:E.
  - cbn. rewrite elem_of_app, list_elem_of_singleton. split.
    + intros [[Hin| ->] Hl]; [tauto|]. right. split; [eauto|reflexivity].
    + intros [[Hin Hl]|[_ <-]]; [tauto|]. split; [tauto|]. rewrite E. eauto.
  - split; [tauto|]. intros [H|[[x Hx] _]]; [exact H|discriminate].
Qed.

(** [canLaunchNewModule] after [registerNewModule]: still true only if it
    was true and the candidate was expired; a registration that took place
    turns it false. *)
Theorem canLaunchNewModule_registerNewModule
    (w : World) (observer : SceneModuleObserver) (prev : BehaviorModuleOutput) :
  canLaunchNewModule (registerNewModule w observer prev)
  = canLaunchNewModule w && expired (instances w) observer.
Proof.
  unfold registerNewModule, expired, canLaunchNewModule.
  destruct (lock (instances w) observer) as [m|].
  - cbn. destruct (observers_ w); reflexivity.
  - now rewrite andb_true_r.
Qed.

(** After [reset] a new module can be launched, [exist] answers false for
    every reference, and a second [reset] only sends one more empty batch on
    the debug channel. *)
Theorem reset_clears_tracking (w : World) :
  canLaunchNewModule (reset w).2 = true
  /\ (forall p, exist (reset w).2 p = false)
  /\ live_count (reset w).2 = 0
  /\ reset (reset w).2 = (None, publish_debug [] (reset w).2).
Proof.
  split; [reflexivity|]. split; [reflexivity|]. split; [reflexivity|].
  reflexivity.
Qed.

Lemma filter_alive_ext (h h' : gmap nat Scene.t) (l : list nat) :
  (forall r, is_Some (h' !! r) <-> is_Some (h !! r)) ->
  filter (fun r => is_Some (h' !! r)) l = filter (fun r => is_Some (h !! r)) l.
Proof. intros H. apply list_filter_iff. intros r. apply H. Qed.

(** The size of the observer set: a registration adds one entry iff the
    candidate is alive (and then one live entry), pruning leaves as many
    entries as there are live ones, and there are never more live entries
    than entries. *)
Theorem observers_size
    (w : World) (observer : SceneModuleObserver) (prev : BehaviorModuleOutput) :
  length (observers_ (registerNewModule w observer prev))
    = length (observers_ w) + (if expired (instances w) observer then 0 else 1)
  /\ live_count (registerNewModule w observer prev)
    = live_count w + (if expired (instances w) observer then 0 else 1)
  /\ length (observers_ (updateObserver w)) = live_count w
  /\ live_count w <= length (observers_ w).
Proof.
  split; [|split; [|split]].
  - unfold registerNewModule, expired.
    destruct (lock (instances w) observer); cbn; [|lia].
    now rewrite length_app.
  - unfold live_count, live_observers.
    rewrite (filter_alive_ext (instances w)) by apply registerNewModule_alive.
    unfold registerNewModule, expired, lock.
    destruct (instances w !! observer) as [m|] eqn:E; cbn; [|lia].
    rewrite filter_app, length_app, filter_cons_True by (rewrite E; eauto).
    reflexivity.
  - now rewrite live_observers_updateObserver.
  - apply length_filter.
Qed.

(** ** Expired entries and the aggregation passes *)

Lemma live_instances_pruned h obs :
  live_instances h (remove_if (expired h) obs) = live_instances h obs.
Proof.
  unfold live_instances. induction obs as [|o obs IH]; [reflexivity|].
  cbn [remove_if]. unfold expired at 1, lock.
  destruct (h !! o) as [inst|] eqn:E; cbn [omap list_omap]; rewrite E, IH; reflexivity.
Qed.

Lemma collect_pruned get h obs b :
  collect get h (remove_if (expired h) obs) b = collect get h obs b.
Proof.
  revert b. induction obs as [|o obs IH]; intros b; [reflexivity|].
  cbn [remove_if collect]. unfold expired at 1, lock.
  destruct (h !! o) as [inst|] eqn:E; cbn [collect]; rewrite ?E, IH; reflexivity.
Qed.

Lemma remove_if_ext {A : Type} (p q : A -> bool) (l : list A) :
  (forall x, p x = q x) -> remove_if p l = remove_if q l.
Proof.
  intros H. induction l as [|x l IH]; [reflexivity|].
  cbn [remove_if]. now rewrite H, IH.
Qed.

Lemma expired_insert_live h o (m m' : Scene.t) r :
  h !! o = Some m -> expired (<[o := m']> h) r = expired h r.
Proof.
  intros H. unfold expired, lock. destruct (decide (o = r)) as [->|Hne].
  - now rewrite lookup_insert_eq, H.
  - now rewrite lookup_insert_ne.
Qed.

Lemma wall_loop_pruned now b h obs acc :
  wall_loop now b h (remove_if (expired h) obs) acc = wall_loop now b h obs acc.
Proof.
  revert h acc. induction obs as [|o obs IH]; intros h acc; [reflexivity|].
  cbn [remove_if wall_loop]. unfold expired at 1, lock.
  destruct (h !! o) as [inst|] eqn:E; cbn [wall_loop]; unfold lock; rewrite ?E.
  - rewrite <- IH. f_equal. apply remove_if_ext. intros r. symmetry.
    eapply expired_insert_live; eauto.
  - apply IH.
Qed.

(** The batches of [marker_batches], spelled out. *)
Lemma marker_batches_formula w :
  marker_batches w
  = match observers_ w, idle_module_ptr_ w with
    | [], Some idle =>
        (Scene.getInfoMarkers idle, Scene.getDebugMarkers idle,
         Scene.getDrivableLanesMarkers idle)
    | _, _ =>
        (collect Scene.getInfoMarkers (instances w) (observers_ w) uint8_max,
         collect Scene.getDebugMarkers (instances w) (observers_ w) uint8_max,
         collect Scene.getDrivableLanesMarkers (instances w) (observers_ w) uint8_max)
    end.
Proof.
  destruct (observers_ w) as [|o obs] eqn:Eo.
  - destruct (idle_module_ptr_ w) as [idle|] eqn:Ei.
    + unfold marker_batches. rewrite Eo, Ei. reflexivity.
    + rewrite marker_batches_collect by tauto. now rewrite Eo.
  - rewrite marker_batches_collect by (left; congruence). now rewrite Eo.
Qed.

(** The factor passes and the virtual-wall pass skip expired entries: what
    they send, and what the wall pass does to the instances, is the same
    whether or not the observer set was pruned first. *)
Theorem passes_skip_expired (now : Time) (w : World) :
  last_factors (pub_steering_factors_ (publishSteeringFactor now (updateObserver w)))
    = last_factors (pub_steering_factors_ (publishSteeringFactor now w))
  /\ last_factors (pub_velocity_factors_ (publishVelocityFactor now (updateObserver w)))
    = last_factors (pub_velocity_factors_ (publishVelocityFactor now w))
  /\ last_markers (pub_virtual_wall_ (publishVirtualWall now (updateObserver w)))
    = last_markers (pub_virtual_wall_ (publishVirtualWall now w))
  /\ instances (publishVirtualWall now (updateObserver w))
    = instances (publishVirtualWall now w).
Proof.
  split; [|split].
  - cbn. now rewrite !factor_loop_filter, live_instances_pruned.
  - cbn. now rewrite !factor_loop_filter, live_instances_pruned.
  - unfold publishVirtualWall. cbn [updateObserver with_observers instances observers_].
    rewrite wall_loop_pruned.
    destruct (wall_loop now uint8_max (instances w) (observers_ w) []) as [h mks].
    split; reflexivity.
Qed.

(** The marker pass skips expired entries too, but the substitution of the
    idle module looks at the entries: pruning first gives the same three
    batches provided an entry is alive, or there is no entry, or no idle
    module is held. *)
Theorem publishMarker_skips_expired (w : World) :
  0 < live_count w \/ observers_ w = [] \/ idle_module_ptr_ w = None ->
  marker_batches (updateObserver w) = marker_batches w.
Proof.
  intros H. rewrite !marker_batches_formula.
  cbn [updateObserver with_observers instances observers_ idle_module_ptr_].
  rewrite !collect_pruned.
  destruct H as [H|[H|H]].
  - assert (Hne : observers_ w <> []) by now apply live_count_pos_observers.
    assert (Hne' : remove_if (expired (instances w)) (observers_ w) <> []).
    { intros E. pose proof (live_observers_updateObserver w) as E'.
      cbn in E'. rewrite E in E'. unfold live_count in H. rewrite <- E' in H.
      cbn in H. lia. }
    destruct (observers_ w); [congruence|].
    destruct (remove_if _ _); [congruence|]. reflexivity.
  - rewrite H. reflexivity.
  - rewrite H. destruct (observers_ w), (remove_if _ _); reflexivity.
Qed.

Lemma publishMarker_skips_expired_witness :
  marker_batches (updateObserver (with_observers [5; 0] one_instance))
  = marker_batches (with_observers [5; 0] one_instance).
Proof.
  apply publishMarker_skips_expired. left. vm_compute. lia.
Defined.

(** ** The virtual-wall pass and the wall poses *)

Lemma resetWallPoses_idem m :
  Scene.resetWallPoses (Scene.resetWallPoses m) = Scene.resetWallPoses m.
Proof. reflexivity. Qed.

Lemma wall_loop_instances now b h obs acc r :
  (wall_loop now b h obs acc).1 !! r
  = if decide (r ∈ obs) then Scene.resetWallPoses <$> h !! r else h !! r.
Proof.
  revert h acc. induction obs as [|o obs IH]; intros h acc; cbn [wall_loop].
  - cbn. destruct (decide (r ∈ [])) as [Hin|_]; [inversion Hin|reflexivity].
  - unfold lock. destruct (h !! o) as [inst|] eqn:E; rewrite IH.
    + destruct (decide (o = r)) as [->|Hne].
      * rewrite lookup_insert_eq, E.
        destruct (decide (r ∈ obs)), (decide (r ∈ r :: obs)) as [|Hn];
          try reflexivity; exfalso; apply Hn; now left.
      * rewrite lookup_insert_ne by exact Hne.
        destruct (decide (r ∈ obs)) as [Hi|Hi], (decide (r ∈ o :: obs)) as [Hj|Hj];
          try reflexivity.
        -- exfalso. apply Hj. now right.
        -- apply elem_of_cons in Hj as [->|Hj]; [congruence|contradiction].
    + destruct (decide (o = r)) as [->|Hne].
      * rewrite E. now destruct (decide (r ∈ obs)), (decide (r ∈ r :: obs)).
      * destruct (decide (r ∈ obs)) as [Hi|Hi], (decide (r ∈ o :: obs)) as [Hj|Hj];
          try reflexivity.
        -- exfalso. apply Hj. now right.
        -- apply elem_of_cons in Hj as [->|Hj]; [congruence|contradiction].
Qed.

Lemma publishVirtualWall_lookup (now : Time) (w : World) (r : nat) :
  instances (publishVirtualWall now w) !! r
  = if decide (r ∈ observers_ w)
    then Scene.resetWallPoses <$> instances w !! r
    else instances w !! r.
Proof.
  unfold publishVirtualWall.
  pose proof (wall_loop_instances now uint8_max (instances w) (observers_ w) [] r) as H.
  destruct (wall_loop now uint8_max (instances w) (observers_ w) []) as [h mks].
  exact H.
Qed.

(** [publishVirtualWall] clears the stop, slow and dead pose of every
    instance that has a live entry, changes nothing else of it, and leaves
    every other instance as it is. *)
Theorem publishVirtualWall_clears_poses (now : Time) (w : World) (r : nat) :
  instances (publishVirtualWall now w) !! r
  = if decide (r ∈ observers_ w)
    then Scene.resetWallPoses <$> instances w !! r
    else instances w !! r.
Proof. apply publishVirtualWall_lookup. Qed.

Lemma live_instances_fmap (f : Scene.t -> Scene.t) h h' obs :
  (forall r, r ∈ obs -> h' !! r = f <$> h !! r) ->
  live_instances h' obs = f <$> live_instances h obs.
Proof.
  unfold live_instances. induction obs as [|o obs IH]; intros H; [reflexivity|].
  cbn [omap list_omap]. rewrite (H o) by now left.
  destruct (h !! o) as [inst|]; cbn.
  - rewrite IH; [reflexivity|]. intros r Hr. apply H. now right.
  - apply IH. intros r Hr. apply H. now right.
Qed.

Lemma wall_body_no_poses now b inst acc :
  Scene.resetWallPoses inst = inst ->
  wall_body now b inst acc = acc ++ Scene.getModuleVirtualWall inst.
Proof.
  intros H. unfold wall_body, Scene.getStopPose, Scene.getSlowPose, Scene.getDeadPose.
  rewrite <- H. reflexivity.
Qed.

Lemma wall_loop_no_poses now b h obs acc :
  (forall r inst, r ∈ obs -> h !! r = Some inst -> Scene.resetWallPoses inst = inst) ->
  wall_loop now b h obs acc
  = (h, acc ++ concat (Scene.getModuleVirtualWall <$> live_instances h obs)).
Proof.
  revert acc. induction obs as [|o obs IH]; intros acc H.
  - cbn. now rewrite app_nil_r.
  - cbn [wall_loop]. unfold live_instances, lock. cbn [omap list_omap].
    destruct (h !! o) as [inst|] eqn:E.
    + assert (Hi : Scene.resetWallPoses inst = inst) by (apply (H o); [now left|exact E]).
      rewrite Hi, (insert_id h o inst E), (wall_body_no_poses _ _ _ _ Hi).
      rewrite IH by (intros r i Hr; apply H; now right).
      rewrite fmap_cons. cbn [concat]. now rewrite <- app_assoc.
    + apply IH. intros r i Hr. apply H. now right.
Qed.

Lemma publishVirtualWall_idle now w :
  idle_module_ptr_ (publishVirtualWall now w) = idle_module_ptr_ w.
Proof.
  unfold publishVirtualWall.
  now destruct (wall_loop now uint8_max (instances w) (observers_ w) []).
Qed.

Lemma publishVirtualWall_live_instances now w :
  live_instances (instances (publishVirtualWall now w)) (observers_ w)
  = Scene.resetWallPoses <$> live_instances (instances w) (observers_ w).
Proof.
  apply live_instances_fmap. intros r Hr.
  rewrite publishVirtualWall_lookup. now destruct (decide (r ∈ observers_ w)).
Qed.

(** A second virtual-wall pass right after a first one finds the poses
    cleared: it sends the module-specific walls of the live instances only,
    and changes no instance. *)
Theorem publishVirtualWall_twice (now now' : Time) (w : World) :
  last_markers (pub_virtual_wall_ (publishVirtualWall now' (publishVirtualWall now w)))
    = concat (Scene.getModuleVirtualWall <$> live_instances (instances w) (observers_ w))
  /\ instances (publishVirtualWall now' (publishVirtualWall now w))
    = instances (publishVirtualWall now w).
Proof.
  unfold publishVirtualWall at 1 3.
  rewrite wall_loop_no_poses.
  - cbn. rewrite publishVirtualWall_observers, publishVirtualWall_live_instances.
    rewrite <- list_fmap_compose. split; reflexivity.
  - intros r inst Hr Hi. rewrite publishVirtualWall_observers in Hr.
    rewrite publishVirtualWall_lookup in Hi.
    destruct (decide (r ∈ observers_ w)); [|contradiction].
    destruct (instances w !! r) as [m|]; [|discriminate].
    injection Hi as <-. reflexivity.
Qed.

Lemma collect_ext get h h' obs b :
  (forall r, r ∈ obs -> get <$> h' !! r = get <$> h !! r) ->
  collect get h' obs b = collect get h obs b.
Proof.
  revert b. induction obs as [|o obs IH]; intros b H; [reflexivity|].
  cbn [collect]. pose proof (H o ltac:(now left)) as Ho.
  assert (Hr : forall r, r ∈ obs -> get <$> h' !! r = get <$> h !! r)
    by (intros r Hr; apply H; now right).
  destruct (h' !! o) as [i'|], (h !! o) as [i|]; cbn in Ho; try discriminate.
  - injection Ho as ->. now rewrite IH.
  - now apply IH.
Qed.

(** The virtual-wall pass has no influence on the other passes: the factor
    batches and the three marker batches are the same after it as before. *)
Theorem publishVirtualWall_keeps_other_passes (now now' : Time) (w : World) :
  last_factors
    (pub_steering_factors_ (publishSteeringFactor now' (publishVirtualWall now w)))
    = last_factors (pub_steering_factors_ (publishSteeringFactor now' w))
  /\ last_factors
       (pub_velocity_factors_ (publishVelocityFactor now' (publishVirtualWall now w)))
     = last_factors (pub_velocity_factors_ (publishVelocityFactor now' w))
  /\ marker_batches (publishVirtualWall now w) = marker_batches w.
Proof.
  split; [|split].
  - cbn. rewrite !factor_loop_filter, publishVirtualWall_observers,
      publishVirtualWall_live_instances, <- list_fmap_compose. reflexivity.
  - cbn. rewrite !factor_loop_filter, publishVirtualWall_observers,
      publishVirtualWall_live_instances, <- list_fmap_compose. reflexivity.
  - rewrite !marker_batches_formula, publishVirtualWall_observers,
      publishVirtualWall_idle.
    assert (H : forall get : Scene.t -> list Marker,
               (forall m, get (Scene.resetWallPoses m) = get m) ->
               collect get (instances (publishVirtualWall now w)) (observers_ w) uint8_max
               = collect get (instances w) (observers_ w) uint8_max).
    { intros get Hget. apply collect_ext. intros r Hr.
      rewrite publishVirtualWall_lookup.
      destruct (decide (r ∈ observers_ w)); [|contradiction].
      destruct (instances w !! r); cbn; [now rewrite Hget|reflexivity]. }
    rewrite !H by reflexivity. reflexivity.
Qed.

Lemma live_instances_insert_notin h o (m : Scene.t) obs :
  o ∉ obs -> live_instances (<[o := m]> h) obs = live_instances h obs.
Proof.
  unfold live_instances. induction obs as [|x obs IH]; intros H; [reflexivity|].
  apply not_elem_of_cons in H as [Hne Hnin].
  cbn [omap list_omap]. rewrite lookup_insert_ne by exact Hne.
  now rewrite IH.
Qed.

Lemma wall_loop_markers now b h obs acc :
  NoDup obs ->
  (wall_loop now b h obs acc).2
  = acc ++ concat ((fun inst => wall_body now b inst []) <$> live_instances h obs).
Proof.
  revert h acc. induction obs as [|o obs IH]; intros h acc Hnd.
  - cbn. now rewrite app_nil_r.
  - apply NoDup_cons in Hnd as [Hnin Hnd].
    cbn [wall_loop]. unfold lock.
    assert (El : live_instances h (o :: obs)
                 = match h !! o with
                   | Some inst => inst :: live_instances h obs
                   | None => live_instances h obs
                   end).
    { unfold live_instances. cbn [omap list_omap]. now destruct (h !! o). }
    rewrite El. destruct (h !! o) as [inst|] eqn:E.
    + rewrite IH by exact Hnd.
      rewrite (live_instances_insert_notin _ _ _ _ Hnin), fmap_cons.
      cbn [concat]. rewrite (wall_body_app now b inst acc), <- app_assoc. reflexivity.
    + now apply IH.
Qed.

(** When no instance has two entries, the virtual-wall batch is made, for
    each live instance in the order of the entries, of the stop wall, the
    slow-down wall and the dead-line wall for the poses it reports, each with
    identifier 255, followed by its module-specific walls. *)
Theorem publishVirtualWall_batch (now : Time) (w : World) :
  NoDup (observers_ w) ->
  last_markers (pub_virtual_wall_ (publishVirtualWall now w))
  = concat
      ((fun inst =>
          from_option
            (fun p => createStopVirtualWallMarker p (Scene.name inst) now 255) []
            (Scene.getStopPose inst)
          ++ from_option
               (fun p => createSlowDownVirtualWallMarker p (Scene.name inst) now 255) []
               (Scene.getSlowPose inst)
          ++ from_option
               (fun p => createDeadLineVirtualWallMarker p (Scene.name inst) now 255) []
               (Scene.getDeadPose inst)
          ++ Scene.getModuleVirtualWall inst)
         <$> live_instances (instances w) (observers_ w)).
Proof.
  intros Hnd. unfold publishVirtualWall.
  pose proof (wall_loop_markers now uint8_max (instances w) (observers_ w) [] Hnd) as H.
  destruct (wall_loop now uint8_max (instances w) (observers_ w) []) as [h mks].
  cbn in H. cbn [last_markers pub_virtual_wall_ publish_virtual_wall]. rewrite H.
  f_equal. apply list_fmap_ext. intros _ inst _.
  unfold wall_body, appendMarkerArray.
  destruct (Scene.getStopPose inst), (Scene.getSlowPose inst), (Scene.getDeadPose inst);
    cbn [from_option app]; rewrite <- ?app_assoc; reflexivity.
Qed.

Lemma publishVirtualWall_batch_witness :
  last_markers
    (pub_virtual_wall_ (publishVirtualWall 3 (with_observers [0; 5; 1] two_instances)))
  = [mkMarker "stop_virtual_wall" 255 "lane_change" 7 3;
     mkMarker "stop_virtual_wall" 255 "avoidance" 9 3].
Proof.
  rewrite (publishVirtualWall_batch 3 (with_observers [0; 5; 1] two_instances)).
  - reflexivity.
  - apply (bool_decide_unpack _). vm_compute. exact I.
Defined.

(** ** Blocks of marker identifiers *)

Lemma collect_blocks get h obs (b : Z) :
  (0 <= b < 2 ^ 32)%Z ->
  collect get h obs b
  = concat (imap (fun k inst =>
                    offset_marker ((b + uint8_max * Z.of_nat k) mod 2 ^ 32) <$> get inst)
                 (live_instances h obs)).
Proof.
  revert b. induction obs as [|o obs IH]; intros b Hb; [reflexivity|].
  unfold live_instances in *. cbn [collect omap list_omap].
  destruct (h !! o) as [inst|]; [|now apply IH].
  rewrite imap_cons. cbn [concat]. f_equal.
  - rewrite Z.mul_0_r, Z.add_0_r, Z.mod_small by exact Hb. reflexivity.
  - rewrite IH by (unfold uint32_add; apply Z.mod_pos_bound; lia).
    f_equal. apply imap_ext. intros k x _. cbn. f_equal. f_equal.
    unfold uint32_add. rewrite Zplus_mod_idemp_l. f_equal. lia.
Qed.

(** The block of a live instance is given by its rank among the live
    entries, expired entries not counted: as soon as the observer set has an
    entry, each batch of [publishMarker] is made, for the k-th live instance
    (k from 0) in the order of the entries, of its markers with 255 * (k + 1)
    added, on 32 bits, to their identifiers. *)
Theorem publishMarker_blocks (w : World) :
  observers_ w <> [] ->
  let block (get : Scene.t -> list Marker) :=
    concat (imap (fun k inst =>
                    offset_marker ((uint8_max * (Z.of_nat k + 1)) mod 2 ^ 32) <$> get inst)
                 (live_instances (instances w) (observers_ w))) in
  marker_batches w
  = (block Scene.getInfoMarkers, block Scene.getDebugMarkers,
     block Scene.getDrivableLanesMarkers).
Proof.
  intros Hne block. rewrite marker_batches_collect by tauto.
  assert (H : forall get,
             collect get (instances w) (observers_ w) uint8_max = block get).
  { intros get. rewrite collect_blocks by (unfold uint8_max; lia).
    unfold block. f_equal. apply imap_ext. intros k x _. cbn beta.
    replace (uint8_max + uint8_max * Z.of_nat k)%Z
      with (uint8_max * (Z.of_nat k + 1))%Z by lia.
    reflexivity. }
  now rewrite !H.
Qed.

Lemma publishMarker_blocks_witness :
  (marker_batches (with_observers [5; 0; 5; 1] two_instances)).1.1
  = [mkMarker "path" 255 "" 1 0; mkMarker "path" 510 "" 2 0].
Proof.
  rewrite (publishMarker_blocks (with_observers [5; 0; 5; 1] two_instances)).
  - reflexivity.
  - discriminate.
Defined.

(** A factor batch holds at most one factor per live entry. *)
Theorem factor_batch_size (now : Time) (w : World) :
  length (last_factors (pub_steering_factors_ (publishSteeringFactor now w)))
    <= live_count w
  /\ length (last_factors (pub_velocity_factors_ (publishVelocityFactor now w)))
    <= live_count w.
Proof.
  cbn. rewrite !factor_loop_filter, !app_nil_l, live_count_live_instances.
  split.
  - etransitivity; [apply length_filter|]. now rewrite length_fmap.
  - etransitivity; [apply length_filter|]. now rewrite length_fmap.
Qed.

(** ** Invariants over sequences of operations *)

Lemma step_observers_registered e w w' r :
  step e w = Some w' -> r ∈ observers_ w' ->
  r ∈ observers_ w \/ exists prev, e = EvRegister r prev.
Proof.
  destruct e; cbn [step]; intros H; try (injection H as <-); cbn; try tauto.
  - unfold registerNewModule, lock.
    destruct (instances w !! observer) as [m|]; [|tauto].
    cbn. rewrite elem_of_app, list_elem_of_singleton.
    intros [?| ->]; [tauto|]. right. eauto.
  - rewrite remove_if_expired_filter, list_elem_of_filter. tauto.
  - intros Hin. inversion Hin.
  - unfold isExecutionRequested in H.
    destruct (idle_module_ptr_ w); [|discriminate]. injection H as <-. tauto.
  - rewrite publishVirtualWall_observers. tauto.
  - rewrite publishMarker_observers. tauto.
  - destruct (instances w !! r0); injection H as <-; tauto.
Qed.

(** The manager tracks only what was registered: in a state reached from a
    freshly constructed manager, every entry of the observer set was the
    candidate of a [registerNewModule] of the sequence. *)
Theorem observers_were_registered
    (h0 : gmap nat Scene.t) (manager_name : string) (evs : list event) (w : World)
    (r : SceneModuleObserver) :
  run evs (SceneModuleManagerInterface h0 manager_name) = Some w ->
  r ∈ observers_ w ->
  exists prev, EvRegister r prev ∈ evs.
Proof.
  assert (G : forall evs w0 w, run evs w0 = Some w -> r ∈ observers_ w ->
                r ∈ observers_ w0 \/ exists prev, EvRegister r prev ∈ evs).
  { clear. induction evs as [|e evs IH]; intros w0 w; cbn [run].
    - intros [= <-]. tauto.
    - destruct (step e w0) as [w1|] eqn:E; [|discriminate].
      intros Hrun Hin. destruct (IH w1 w Hrun Hin) as [H|[prev H]].
      + destruct (step_observers_registered _ _ _ _ E H) as [H'|[prev ->]];
          [tauto|]. right. exists prev. now left.
      + right. exists prev. now right. }
  intros Hrun Hin. destruct (G evs _ w Hrun Hin) as [H|H]; [inversion H|exact H].
Qed.

Lemma observers_were_registered_witness :
  exists prev, EvRegister 1 prev ∈ [EvRegister 0 2; EvRegister 1 3; EvDestroy 0].
Proof.
  apply (observers_were_registered
           {[ 0 := lane_change; 1 := avoidance ]} "manager"
           [EvRegister 0 2; EvRegister 1 3; EvDestroy 0]
           (with_instances (delete 0 (instances
              (registerNewModule (registerNewModule two_instances 0 2) 1 3)))
              (registerNewModule (registerNewModule two_instances 0 2) 1 3))
           1).
  - reflexivity.
  - vm_compute. right. left.
Defined.



Lemma step_name e w w' : step e w = Some w' -> name w' = name w.
Proof.
  unfold name.
  destruct e; cbn [step]; intros H; try (injection H as <-); try reflexivity.
  - unfold registerNewModule. now destruct (lock (instances w) observer).
  - unfold isExecutionRequested in H.
    destruct (idle_module_ptr_ w); [|discriminate]. now injection H as <-.
  - unfold publishVirtualWall.
    now destruct (wall_loop now uint8_max (instances w) (observers_ w) []).
  - unfold publishMarker. now destruct (marker_batches w) as [[? ?] ?].
  - destruct (instances w !! r); now injection H as <-.
Qed.

(** The name given at construction is the name for good: no operation and
    no outside event changes what [name] returns. *)
Theorem name_is_constant
    (h0 : gmap nat Scene.t) (manager_name : string) (evs : list event) (w : World) :
  run evs (SceneModuleManagerInterface h0 manager_name) = Some w ->
  name w = manager_name.
Proof.
  assert (G : forall evs w0 w, run evs w0 = Some w -> name w = name w0).
  { clear. induction evs as [|e evs IH]; intros w0 w; cbn [run].
    - now intros [= <-].
    - destruct (step e w0) as [w1|] eqn:E; [|discriminate].
      intros Hrun. rewrite (IH w1 w Hrun). eapply step_name; eauto. }
  intros Hrun. now rewrite (G evs _ w Hrun).
Qed.

Lemma name_is_constant_witness :
  name (snd (reset (registerNewModule one_instance 0 2))) = "lane_change".
Proof.
  apply (name_is_constant {[ 0 := lane_change ]} "lane_change"
           [EvRegister 0 2; EvReset]).
  reflexivity.
Defined.

(** After [updateObserver] every entry is alive, and on an observer set
    whose entries are all alive it changes nothing. *)
Theorem updateObserver_all_live (w : World) :
  all_live (updateObserver w)
  /\ (all_live w -> updateObserver w = w).
Proof.
  split.
  - unfold all_live. cbn. rewrite remove_if_expired_filter.
    apply Forall_forall. intros r Hr. now apply list_elem_of_filter in Hr.
  - intros H. unfold updateObserver.
    rewrite remove_if_all_false.
    + now destruct w.
    + eapply Forall_impl; [exact H|]. cbn. intros r Hr. now apply expired_false.
Qed.

(** ** Data handed to the modules *)

(** The planner data installed by [setData] is what the next
    [registerNewModule] gives a live candidate, together with the previous
    output and the manager's reporter; no other instance is touched, and
    [setData] alone touches none. *)
Theorem setData_then_registerNewModule
    (w : World) (d : option PlannerData) (observer : SceneModuleObserver)
    (prev : BehaviorModuleOutput) (m : Scene.t) :
  instances w !! observer = Some m ->
  instances (setData w d) = instances w
  /\ (exists m', instances (registerNewModule (setData w d) observer prev) !! observer
                   = Some m'
                 /\ Scene.planner_data m' = d
                 /\ Scene.previous_module_output m' = Some prev
                 /\ Scene.reporters m' = Scene.reporters m ++ [pub_processing_time_ w])
  /\ (forall r, r <> observer ->
        instances (registerNewModule (setData w d) observer prev) !! r
        = instances w !! r).
Proof.
  intros Hm. split; [reflexivity|].
  unfold registerNewModule, lock. cbn [setData with_planner_data instances].
  rewrite Hm. cbn. split.
  - eexists. split; [apply lookup_insert_eq|]. repeat split.
  - intros r Hr. now apply lookup_insert_ne.
Qed.

Lemma setData_then_registerNewModule_witness :
  Scene.planner_data
    <$> instances (registerNewModule (setData one_instance (Some 8)) 0 2) !! 0
  = Some (Some 8).
Proof.
  destruct (setData_then_registerNewModule one_instance (Some 8) 0 2 lane_change eq_refl)
    as (_ & (m' & Hm' & Hd & _) & _).
  rewrite Hm'. cbn. now rewrite Hd.
Defined.

(** The idle module handed out after a probe is the probed one: it carries
    the manager's planner data and the previous output of the probe, and its
    own answer is the one the probe returned.  Once it is handed out, a
    further probe has nothing to work on. *)
Theorem probe_then_getIdleModule
    (w w' : World) (prev : BehaviorModuleOutput) (b : bool) :
  isExecutionRequested w prev = Some (b, w') ->
  exists m,
    (getIdleModule w').1 = Some m
    /\ Scene.planner_data m = planner_data_ w
    /\ Scene.previous_module_output m = Some prev
    /\ Scene.isExecutionRequested m = b
    /\ isExecutionRequested (getIdleModule w').2 prev = None.
Proof.
  unfold isExecutionRequested. intros H.
  destruct (idle_module_ptr_ w) as [m|]; [|discriminate].
  injection H as <- <-. eexists. repeat split.
Qed.

Lemma probe_then_getIdleModule_witness :
  exists m,
    (getIdleModule
       (with_idle (Some (Scene.updateData
                           (Scene.setPreviousModuleOutput 2
                              (Scene.setData None lane_change))))
          one_instance)).1 = Some m
    /\ Scene.previous_module_output m = Some 2.
Proof.
  destruct (probe_then_getIdleModule
              (with_idle (Some lane_change) one_instance)
              (with_idle (Some (Scene.updateData
                                  (Scene.setPreviousModuleOutput 2
                                     (Scene.setData None lane_change))))
                 one_instance)
              2 false eq_refl) as (m & H1 & _ & H2 & _).
  exists m. split; assumption.
Defined.
